(** * Homework Hero, phase 1: section selector and output structure

    A shallow embedding of [Scripts/phase1.py]: the section-spec parser
    [parse_section_spec] and the document transformer
    [build_output_structure], together with the Python built-ins they call
    ([str.split], [str.strip], [int], [repr], [dict] item assignment and
    lookup, membership in a [set]).

    Conventions.
    - A Python [str] is a [string]; each [ascii] is one code point, so the
      model covers the strings whose code points are below 256.
    - A Python [int] is a [Z]; a [set] of ints is a [gset Z].
    - A [dict] is an association list in insertion order.  Item assignment
      keeps the place of a key that is already there.
    - A raised exception is the [Raise] case of [result]. *)

From Stdlib Require Import ZArith String Ascii List Bool Lia.
From Stdlib Require Import Floats.SpecFloat Numbers.DecimalString Numbers.DecimalZ.
From stdpp Require Import base gmap sets list strings.

Open Scope string_scope.
Open Scope list_scope.
Open Scope Z_scope.

(** ** Exceptions *)

Inductive exn : Type :=
| ValueError (msg : string)
| TypeError (msg : string).

Inductive result (A : Type) : Type :=
| Ok (a : A)
| Raise (e : exn).

Arguments Ok {A} a.
Arguments Raise {A} e.

Definition bind {A B : Type} (r : result A) (k : A -> result B) : result B :=
  match r with
  | Ok a => k a
  | Raise e => Raise e
  end.

Notation "x <- r ;; k" := (bind r (fun x => k))
  (at level 100, r at next level, right associativity, only parsing).

(** ** Characters and strings *)

Definition ord (c : ascii) : N := N_of_ascii c.
Definition chr (n : N) : ascii := ascii_of_N n.

Definition dquote : ascii := chr 34.
Definition squote : ascii := chr 39.
Definition backslash : ascii := chr 92.

Definition between (lo hi n : N) : bool := ((lo <=? n) && (n <=? hi))%N.

(** [str.isspace] on one code point below 256. *)
Definition isspace (c : ascii) : bool :=
  between 9 13 (ord c) || between 28 32 (ord c)
  || (ord c =? 133)%N || (ord c =? 160)%N.

(** [Py_ISSPACE], the C-level test that [int] applies to ASCII text. *)
Definition is_ascii_space (c : ascii) : bool :=
  between 9 13 (ord c) || (ord c =? 32)%N.

(** [str.isprintable] on one code point below 256. *)
Definition isprintable (c : ascii) : bool :=
  between 32 126 (ord c) || (between 161 255 (ord c) && negb (ord c =? 173)%N).

Definition is_empty (s : string) : bool :=
  match s with
  | EmptyString => true
  | String _ _ => false
  end.

(** [sep in s] for a one-character [sep]. *)
Fixpoint str_contains (sep : ascii) (s : string) : bool :=
  match s with
  | EmptyString => false
  | String c rest => Ascii.eqb c sep || str_contains sep rest
  end.

(** [s.split(sep)] for a one-character [sep]: always at least one piece. *)
Fixpoint str_split (sep : ascii) (s : string) : list string :=
  match s with
  | EmptyString => [EmptyString]
  | String c rest =>
      if Ascii.eqb c sep then EmptyString :: str_split sep rest
      else match str_split sep rest with
           | [] => [String c EmptyString]
           | piece :: pieces => String c piece :: pieces
           end
  end.

(** [s.split(sep, 1)]: cut at the first [sep], one piece when there is none. *)
Fixpoint str_split1 (sep : ascii) (s : string) : list string :=
  match s with
  | EmptyString => [EmptyString]
  | String c rest =>
      if Ascii.eqb c sep then [EmptyString; rest]
      else match str_split1 sep rest with
           | piece :: pieces => String c piece :: pieces
           | [] => [String c EmptyString]
           end
  end.

Fixpoint str_lstrip (s : string) : string :=
  match s with
  | EmptyString => EmptyString
  | String c rest => if isspace c then str_lstrip rest else s
  end.

Fixpoint str_rstrip (s : string) : string :=
  match s with
  | EmptyString => EmptyString
  | String c rest =>
      let rest' := str_rstrip rest in
      if isspace c && is_empty rest' then EmptyString else String c rest'
  end.

(** [s.strip()] *)
Definition str_strip (s : string) : string := str_rstrip (str_lstrip s).

(** *** [repr] of a [str] *)

Definition hex_digit (n : N) : ascii :=
  if (n <? 10)%N then chr (48 + n) else chr (87 + n).

Definition repr_char (quote c : ascii) : string :=
  if Ascii.eqb c quote || Ascii.eqb c backslash then String backslash (String c "")
  else if (ord c =? 9)%N then String backslash "t"
  else if (ord c =? 10)%N then String backslash "n"
  else if (ord c =? 13)%N then String backslash "r"
  else if isprintable c then String c ""
  else String backslash
         (String "x" (String (hex_digit (ord c / 16)) (String (hex_digit (ord c mod 16)) ""))).

Fixpoint repr_body (quote : ascii) (s : string) : string :=
  match s with
  | EmptyString => EmptyString
  | String c rest => repr_char quote c +:+ repr_body quote rest
  end.

Definition py_repr (s : string) : string :=
  let quote :=
    if str_contains squote s && negb (str_contains dquote s) then dquote else squote in
  String quote (repr_body quote s +:+ String quote "").

(** *** [int] of a [str], base 10 *)

(** The integer-string conversion limit: applied above [digits_threshold]
    digits when [max_str_digits] is positive (its default is 4300). *)
Definition digits_threshold : nat := 640.
Definition max_str_digits : nat := 4300.

Definition exceeds_limit (digits : nat) : bool :=
  (digits_threshold <? digits)%nat && (0 <? max_str_digits)%nat
  && (max_str_digits <? digits)%nat.

Definition digit_value (c : ascii) : option Z :=
  if between 48 57 (ord c) then Some (Z.of_N (ord c) - 48) else None.

(** Whitespace above ASCII becomes a blank; any other character from 127
    on becomes a question mark and conversion stops there. *)
Fixpoint transform_chars (s : string) : string :=
  match s with
  | EmptyString => EmptyString
  | String c rest =>
      if (ord c <? 127)%N then String c (transform_chars rest)
      else if isspace c then String " " (transform_chars rest)
      else "?"
  end.

Fixpoint all_ascii (s : string) : bool :=
  match s with
  | EmptyString => true
  | String c rest => (ord c <? 128)%N && all_ascii rest
  end.

Definition to_ascii (s : string) : string :=
  if all_ascii s then s else transform_chars s.

Fixpoint skip_spaces (s : string) : string :=
  match s with
  | EmptyString => EmptyString
  | String c rest => if is_ascii_space c then skip_spaces rest else s
  end.

(** Digits with single underscores between them.  [prev] is the character
    read last; a doubled or a trailing underscore is a syntax error. *)
Fixpoint scan_digits (p : string) (prev : ascii) (acc : Z) (digits : nat)
  : option (Z * nat * string) :=
  match p with
  | EmptyString => if Ascii.eqb prev "_" then None else Some (acc, digits, p)
  | String c rest =>
      match digit_value c with
      | Some d => scan_digits rest c (10 * acc + d) (S digits)
      | None =>
          if Ascii.eqb c "_" then
            if Ascii.eqb prev "_" then None else scan_digits rest c acc digits
          else if Ascii.eqb prev "_" then None else Some (acc, digits, p)
      end
  end.

Definition starts_with (c : ascii) (s : string) : bool :=
  match s with
  | EmptyString => false
  | String c' _ => Ascii.eqb c' c
  end.

Definition read_sign (s : string) : Z * string :=
  match s with
  | String c rest =>
      if Ascii.eqb c "+" then (1, rest)
      else if Ascii.eqb c "-" then (-1, rest)
      else (1, s)
  | EmptyString => (1, s)
  end.

(** [int(s)]: [None] stands for [ValueError]. *)
Definition py_int (s : string) : option Z :=
  let '(sign, str) := read_sign (skip_spaces (to_ascii s)) in
  if starts_with "_" str then None
  else
    match scan_digits str zero 0 0 with
    | None => None
    | Some (value, digits, rest) =>
        if (digits =? 0)%nat then None
        else if negb (is_empty (skip_spaces rest)) then None
        else if exceeds_limit digits then None
        else Some (sign * value)
    end.

(** [range(start, stop)] *)
Definition py_range (start stop : Z) : list Z :=
  map (fun i => start + Z.of_nat i) (seq 0 (Z.to_nat (stop - start))).

(** ** JSON values and dicts *)

#[local] Set Warnings "-register-all".

Inductive json : Type :=
| JNull
| JBool (b : bool)
| JInt (n : Z)
| JFloat (f : spec_float)
| JStr (s : string)
| JList (items : list json)
| JDict (items : list (string * json)).

Definition dict : Type := list (string * json).

(** [d.get(key)]; [None] when the key is absent. *)
Fixpoint dict_get (key : string) (d : dict) : option json :=
  match d with
  | [] => None
  | (k, v) :: rest => if String.eqb k key then Some v else dict_get key rest
  end.

(** [d[key] = value] *)
Fixpoint dict_set (key : string) (value : json) (d : dict) : dict :=
  match d with
  | [] => [(key, value)]
  | (k, v) :: rest =>
      if String.eqb k key then (k, value) :: rest
      else (k, v) :: dict_set key value rest
  end.

(** [del d[key]] for a key that may be absent. *)
Definition dict_del (key : string) (d : dict) : dict :=
  List.filter (fun kv => negb (String.eqb (fst kv) key)) d.

Definition dict_keys (d : dict) : list string := map fst d.

(** The value of a finite float when it is a whole number. *)
Definition float_integral (f : spec_float) : option Z :=
  match f with
  | S754_zero _ => Some 0
  | S754_infinity _ => None
  | S754_nan => None
  | S754_finite s m e =>
      let sign := if s then -1 else 1 in
      if 0 <=? e then Some (sign * (Z.pos m * 2 ^ e))
      else if Z.pos m mod 2 ^ (- e) =? 0 then Some (sign * (Z.pos m / 2 ^ (- e)))
      else None
  end.

(** Hashing a value before a set lookup: the int it compares equal to, if
    any; lists and dicts are unhashable. *)
Definition hash_key (v : json) : result (option Z) :=
  match v with
  | JNull => Ok None
  | JBool b => Ok (Some (if b then 1 else 0))
  | JInt n => Ok (Some n)
  | JFloat f => Ok (float_integral f)
  | JStr _ => Ok None
  | JList _ => Raise (TypeError "unhashable type: 'list'")
  | JDict _ => Raise (TypeError "unhashable type: 'dict'")
  end.

(** [v in s] for a set of ints [s]. *)
Definition set_contains (v : json) (s : gset Z) : result bool :=
  k <- hash_key v ;;
  Ok (match k with
      | Some n => bool_decide (n ∈ s)
      | None => false
      end).

(** ** [parse_section_spec] *)

Definition range_error (chunk : string) : exn :=
  ValueError ("Invalid section range: " +:+ py_repr chunk).

Definition value_error (chunk : string) : exn :=
  ValueError ("Invalid section value: " +:+ py_repr chunk).

(** [for s in range(start, end + 1): sections.add(s)] *)
Definition add_range (start end_ : Z) (sections : gset Z) : gset Z :=
  fold_left (fun acc s => {[s]} ∪ acc) (py_range start (end_ + 1)) sections.

(** One turn of the loop over the chunks, from [chunk.strip()] on. *)
Definition parse_chunk (chunk : string) (sections : gset Z) : result (gset Z) :=
  let chunk := str_strip chunk in
  if is_empty chunk then Ok sections
  else if str_contains "-" chunk then
    match str_split1 "-" chunk with
    | [start_str; end_str] =>
        match py_int start_str, py_int end_str with
        | Some start, Some end_ =>
            let '(start, end_) :=
              if end_ <? start then (end_, start) else (start, end_) in
            Ok (add_range start end_ sections)
        | _, _ => Raise (range_error chunk)
        end
    | _ => Raise (ValueError "not enough values to unpack (expected 2, got 1)")
    end
  else
    match py_int chunk with
    | Some n => Ok ({[n]} ∪ sections)
    | None => Raise (value_error chunk)
    end.

Fixpoint parse_chunks (chunks : list string) (sections : gset Z) : result (gset Z) :=
  match chunks with
  | [] => Ok sections
  | chunk :: rest =>
      sections' <- parse_chunk chunk sections ;;
      parse_chunks rest sections'
  end.

Definition parse_section_spec (spec : string) : result (gset Z) :=
  parse_chunks (str_split "," spec) ∅.

(** ** [build_output_structure] *)

Definition sections_error : exn :=
  TypeError "Input JSON 'sections' field must be a list.".

(** The loop that keeps the existing top-level fields. *)
Definition copy_fields (data output : dict) : dict :=
  fold_left
    (fun out kv => if String.eqb (fst kv) "sections" then out
                   else dict_set (fst kv) (snd kv) out)
    data output.

(** [isinstance(s, dict) and s.get("section") in section_filter] *)
Definition keep_section (section_filter : gset Z) (s : json) : result bool :=
  match s with
  | JDict d => set_contains (default JNull (dict_get "section" d)) section_filter
  | _ => Ok false
  end.

(** The list comprehension over [all_sections]. *)
Fixpoint filter_sections (section_filter : gset Z) (all_sections : list json)
  : result (list json) :=
  match all_sections with
  | [] => Ok []
  | s :: rest =>
      keep <- keep_section section_filter s ;;
      kept <- filter_sections section_filter rest ;;
      Ok (if keep then s :: kept else kept)
  end.

(** The dict literal the output starts from. *)
Definition initial_output (seed : Z) (theme_text : string) : dict :=
  [("seed", JInt seed); ("theme", JStr theme_text)].

(** [section_filter] is [None] when no filter was asked for. *)
Definition select_sections (section_filter : option (gset Z)) (all_sections : list json)
  : result (list json) :=
  match section_filter with
  | None => Ok all_sections
  | Some wanted => filter_sections wanted all_sections
  end.

Definition build_output_structure
    (data : dict) (seed : Z) (theme_text : string)
    (section_filter : option (gset Z)) : result dict :=
  let output := initial_output seed theme_text in
  let output := copy_fields data output in
  match default (JList []) (dict_get "sections" data) with
  | JList all_sections =>
      filtered_sections <- select_sections section_filter all_sections ;;
      Ok (dict_set "sections" (JList filtered_sections) output)
  | _ => Raise sections_error
  end.

(** ** [main]

    [main] from the point where standard input has been parsed as JSON
    ([data]) and the theme file has been read ([theme_text]); [section] is
    the value of [--section], [None] when the option is not given.  The
    result is what [main] does next: it hands an output to [json.dump], or
    it prints a message on standard error and exits with a status, or an
    exception leaves it. *)

Inductive outcome : Type :=
| Dumped (output : dict)
| Exited (status : Z) (message : string)
| Uncaught (e : exn).

(** [str(exc)] *)
Definition exn_text (e : exn) : string :=
  match e with
  | ValueError msg => msg
  | TypeError msg => msg
  end.

(** [type(v).__name__] *)
Definition type_name (v : json) : string :=
  match v with
  | JNull => "NoneType"
  | JBool _ => "bool"
  | JInt _ => "int"
  | JFloat _ => "float"
  | JStr _ => "str"
  | JList _ => "list"
  | JDict _ => "dict"
  end.

(** [section_filter], after the [if args.section is not None] block. *)
Definition parse_section_arg (section : option string) : result (option (gset Z)) :=
  match section with
  | None => Ok None
  | Some spec => wanted <- parse_section_spec spec ;; Ok (Some wanted)
  end.

(** The message [main] prints when building the output fails.  On a
    value that is not a dict the failure is the [AttributeError] of
    [data.items()]. *)
Definition build_failure (text : string) : string :=
  "Error while building output structure: " +:+ text.

Definition main_body
    (data : json) (seed : Z) (theme_text : string) (section : option string)
  : outcome :=
  match parse_section_arg section with
  | Raise (ValueError msg) => Exited 1 ("Error: " +:+ msg)
  | Raise e => Uncaught e
  | Ok section_filter =>
      match data with
      | JDict d =>
          match build_output_structure d seed theme_text section_filter with
          | Ok output => Dumped output
          | Raise e => Exited 1 (build_failure (exn_text e))
          end
      | _ =>
          Exited 1
            (build_failure ("'" +:+ type_name data +:+ "' object has no attribute 'items'"))
      end
  end.

(** ** [app.py]: [load_source_datasets]

    [load_source_datasets] from the point where [source_datasets.json] has
    been parsed ([data]): the list of data sources it returns, or the
    exception it raises. *)

(** [bool(v)] *)
Definition truthy (v : json) : bool :=
  match v with
  | JNull => false
  | JBool b => b
  | JInt n => negb (n =? 0)
  | JFloat (S754_zero _) => false
  | JFloat _ => true
  | JStr s => negb (is_empty s)
  | JList items => match items with [] => false | _ :: _ => true end
  | JDict items => match items with [] => false | _ :: _ => true end
  end.

(** [s.replace(old, new)] for one-character [old] and [new]. *)
Fixpoint str_replace (old new : ascii) (s : string) : string :=
  match s with
  | EmptyString => EmptyString
  | String c rest =>
      String (if Ascii.eqb c old then new else c) (str_replace old new rest)
  end.

Module App.

Inductive error : Type :=
| ValueError (msg : string)
| AttributeError (msg : string).

Inductive loaded (A : Type) : Type :=
| Loaded (a : A)
| Failed (e : error).

Arguments Loaded {A} a.
Arguments Failed {A} e.

Definition no_attribute (v : json) (attribute : string) : error :=
  AttributeError
    ("'" +:+ type_name v +:+ "' object has no attribute '" +:+ attribute +:+ "'").

Definition not_list_or_object : error :=
  ValueError "Reference_Data/source_datasets.json must be a list or object.".

Section Entries.

(** [str.title]: its case tables are those of the Unicode database, and
    its result can hold code points from 256 on; it is left open here. *)
Variable title : string -> string.

(** One turn of the loop over the items: the entry to append, if any. *)
Definition entry_of (item : json) : loaded (option dict) :=
  match item with
  | JDict d =>
      let short_name := default JNull (dict_get "short_name" d) in
      if negb (truthy short_name) then Loaded None
      else
        let given := default JNull (dict_get "name" d) in
        if truthy given then Loaded (Some [("id", short_name); ("name", given)])
        else
          match short_name with
          | JStr s =>
              Loaded (Some [("id", short_name);
                            ("name", JStr (title (str_replace "_" " " s)))])
          | _ => Failed (no_attribute short_name "replace")
          end
  | _ => Failed (no_attribute item "get")
  end.

Fixpoint entries_of (items : list json) : loaded (list dict) :=
  match items with
  | [] => Loaded []
  | item :: rest =>
      match entry_of item with
      | Failed e => Failed e
      | Loaded entry =>
          match entries_of rest with
          | Failed e => Failed e
          | Loaded entries =>
              Loaded (match entry with
                      | Some e => e :: entries
                      | None => entries
                      end)
          end
      end
  end.

Definition source_entries (data : json) : loaded (list dict) :=
  let data := match data with
              | JDict _ => JList [data]
              | _ => data
              end in
  match data with
  | JList items => entries_of items
  | _ => Failed not_list_or_object
  end.

End Entries.

End App.

(** The items of the parsed file: the file's list, or the one object. *)
Definition items_of (data : json) : option (list json) :=
  match data with
  | JList items => Some items
  | JDict _ => Some [data]
  | _ => None
  end.

(** The "short_name" of an item, [None] in Python when it has none. *)
Definition short_name_of (item : json) : json :=
  match item with
  | JDict d => default JNull (dict_get "short_name" d)
  | _ => JNull
  end.

(** An item the loop of [load_source_datasets] gets through: a dict
    that is skipped, or has a name, or has a string as its short name. *)
Definition item_loads (item : json) : Prop :=
  exists d, item = JDict d
            /\ (truthy (default JNull (dict_get "short_name" d)) = false
                \/ truthy (default JNull (dict_get "name" d)) = true
                \/ exists s, dict_get "short_name" d = Some (JStr s)).

(** ** Vocabulary of the statements *)

(** The chunks of a spec that the loop does not skip: trimmed, non-empty. *)
Definition chunk_tokens (chunks : list string) : list string :=
  List.filter (fun t => negb (is_empty t)) (map str_strip chunks).

Definition tokens (spec : string) : list string :=
  chunk_tokens (str_split "," spec).

(** [token_denotes t lo hi]: the token [t] stands for the integers from
    [lo] to [hi].  A token without a dash is read as one integer; a token
    with a dash is cut at its first dash and both parts are read as
    integers, in either order. *)
Inductive token_denotes : string -> Z -> Z -> Prop :=
| single_token (t : string) (n : Z) :
    str_contains "-" t = false ->
    py_int t = Some n ->
    token_denotes t n n
| range_token (a b : string) (x y : Z) :
    str_contains "-" a = false ->
    py_int a = Some x ->
    py_int b = Some y ->
    token_denotes (a +:+ String "-" b) (Z.min x y) (Z.max x y).

Definition token_valid (t : string) : Prop :=
  exists lo hi, token_denotes t lo hi.

(** [literal_denotes t lo hi]: the reading in the words of the
    specification, with no mention of where the token is cut: [t] is an
    integer literal, or two integer literals with a dash between them. *)
Inductive literal_denotes : string -> Z -> Z -> Prop :=
| literal_single (t : string) (n : Z) :
    py_int t = Some n ->
    literal_denotes t n n
| literal_pair (a b : string) (x y : Z) :
    py_int a = Some x ->
    py_int b = Some y ->
    literal_denotes (a +:+ String "-" b) (Z.min x y) (Z.max x y).

(** A token the specification calls valid, and that does not begin with a
    dash. *)
Definition accepted (t : string) : Prop :=
  (exists lo hi, literal_denotes t lo hi) /\ starts_with "-" t = false.

(** A string that is not empty and does not begin with whitespace. *)
Definition trimmed (t : string) : Prop :=
  exists c rest, t = String c rest /\ isspace c = false.

(** The characters [int] reads after the sign. *)
Definition is_int_char (c : ascii) : bool :=
  between 48 57 (ord c) || Ascii.eqb c "_" || is_ascii_space c.

(** The error raised for a token that is not valid. *)
Definition token_error (t : string) : exn :=
  if str_contains "-" t then range_error t else value_error t.

(** The decimal literal of an integer, as [str(n)] writes it. *)
Definition decimal_literal (n : Z) : string :=
  NilZero.string_of_int (Z.to_int n).

Fixpoint str_forall (P : ascii -> bool) (s : string) : bool :=
  match s with
  | EmptyString => true
  | String c rest => P c && str_forall P rest
  end.

Definition is_literal_char (c : ascii) : bool :=
  between 48 57 (ord c) || Ascii.eqb c "-".

(** Characters that [repr] copies as they are, whatever the quote. *)
Definition is_plain_char (c : ascii) : bool :=
  isprintable c
  && negb (Ascii.eqb c squote || Ascii.eqb c dquote || Ascii.eqb c backslash).

Definition is_list (v : json) : bool :=
  match v with
  | JList _ => true
  | _ => false
  end.

Definition hashable (v : json) : bool :=
  match v with
  | JList _ | JDict _ => false
  | _ => true
  end.

(** [equals_int v n]: the JSON value [v] compares equal to the int [n]
    (an int, a bool read as 0 or 1, or a float that is a whole number). *)
Inductive equals_int : json -> Z -> Prop :=
| equals_int_int (n : Z) : equals_int (JInt n) n
| equals_int_bool (b : bool) : equals_int (JBool b) (if b then 1 else 0)
| equals_int_float (f : spec_float) (n : Z) :
    float_integral f = Some n -> equals_int (JFloat f) n.

(** An entry is selected when it is a dict whose "section" value is a
    member of the wanted set. *)
Definition selected (wanted : gset Z) (s : json) : bool :=
  match s with
  | JDict d =>
      match dict_get "section" d with
      | Some (JInt n) => bool_decide (n ∈ wanted)
      | Some (JBool b) => bool_decide ((if b then 1 else 0) ∈ wanted)
      | Some (JFloat f) =>
          match float_integral f with
          | Some n => bool_decide (n ∈ wanted)
          | None => false
          end
      | _ => false
      end
  | _ => false
  end.

(** A dict entry whose "section" value can be hashed; any other entry. *)
Definition section_hashable (s : json) : Prop :=
  forall d v, s = JDict d -> dict_get "section" d = Some v -> hashable v = true.

(** The value of a run of decimal digits read after [acc]. *)
Fixpoint uint_value (d : Decimal.uint) (acc : Z) : Z :=
  match d with
  | Decimal.Nil => acc
  | Decimal.D0 d => uint_value d (10 * acc + 0)
  | Decimal.D1 d => uint_value d (10 * acc + 1)
  | Decimal.D2 d => uint_value d (10 * acc + 2)
  | Decimal.D3 d => uint_value d (10 * acc + 3)
  | Decimal.D4 d => uint_value d (10 * acc + 4)
  | Decimal.D5 d => uint_value d (10 * acc + 5)
  | Decimal.D6 d => uint_value d (10 * acc + 6)
  | Decimal.D7 d => uint_value d (10 * acc + 7)
  | Decimal.D8 d => uint_value d (10 * acc + 8)
  | Decimal.D9 d => uint_value d (10 * acc + 9)
  end.

Definition is_digit_char (c : ascii) : bool := between 48 57 (ord c).

(** ** Documents used as examples *)

Definition titled_doc : dict := [("title", JStr "T"); ("sections", JList [])].

Definition three_sections : list json :=
  [ JDict [("section", JInt 1); ("x", JStr "a")];
    JDict [("section", JInt 2); ("x", JStr "b")];
    JDict [("y", JStr "z")] ].

Definition sectioned_doc : dict := [("sections", JList three_sections)].

Definition mixed_doc : dict :=
  [("sections", JList [JInt 7; JDict [("section", JList [])]; JStr "s"])].

Definition seeded_doc : dict :=
  [("seed", JInt 7); ("theme", JStr "old"); ("sections", JList [])].

(** * Properties *)

(** ** Dicts *)

Section DictFacts.

Implicit Types (d out : dict) (k key : string) (v value : json).

Lemma dict_get_set_same key value d :
  dict_get key (dict_set key value d) = Some value.
Proof.
  induction d as [|[k v] d IH]; simpl.
  - by rewrite String.eqb_refl.
  - destruct (String.eqb k key) eqn:E; simpl; by rewrite E.
Qed.

Lemma dict_get_set_other key k value d :
  k <> key -> dict_get k (dict_set key value d) = dict_get k d.
Proof.
  intros Hne. induction d as [|[k' v'] d IH]; simpl.
  - destruct (String.eqb_spec key k); congruence.
  - destruct (String.eqb_spec k' key) as [->|Hk]; simpl.
    + destruct (String.eqb_spec key k); congruence.
    + by rewrite IH.
Qed.

Lemma dict_get_del_other key k d :
  k <> key -> dict_get k (dict_del key d) = dict_get k d.
Proof.
  intros Hne. induction d as [|[k' v'] d IH]; simpl; [done|].
  destruct (String.eqb_spec k' key) as [->|Hk]; simpl.
  - destruct (String.eqb_spec key k); congruence.
  - by rewrite IH.
Qed.

Lemma dict_get_del_same key d : dict_get key (dict_del key d) = None.
Proof.
  induction d as [|[k' v'] d IH]; simpl; [done|].
  destruct (String.eqb k' key) eqn:E; simpl; [done|]. by rewrite E.
Qed.

Lemma dict_get_absent key d :
  dict_get key d = None <-> ~ In key (dict_keys d).
Proof.
  induction d as [|[k v] d IH]; simpl; [tauto|].
  destruct (String.eqb_spec k key) as [->|Hk].
  - split; [discriminate | tauto].
  - rewrite IH. tauto.
Qed.

Lemma dict_set_absent key value d :
  dict_get key d = None -> dict_set key value d = d ++ [(key, value)].
Proof.
  induction d as [|[k v] d IH]; simpl; [done|].
  destruct (String.eqb k key); [discriminate|].
  intros H. by rewrite IH.
Qed.

Lemma dict_del_absent key d :
  dict_get key d = None -> dict_del key d = d.
Proof.
  induction d as [|[k v] d IH]; simpl; [done|].
  destruct (String.eqb k key); [discriminate|].
  intros H. simpl. by rewrite IH.
Qed.

Lemma dict_del_comm k1 k2 d :
  dict_del k1 (dict_del k2 d) = dict_del k2 (dict_del k1 d).
Proof.
  induction d as [|[k v] d IH]; simpl; [done|].
  destruct (String.eqb k k2) eqn:E2, (String.eqb k k1) eqn:E1;
    simpl; rewrite ?E1, ?E2; simpl; by rewrite ?IH.
Qed.

Lemma dict_keys_del key d :
  dict_keys (dict_del key d)
  = List.filter (fun k => negb (String.eqb k key)) (dict_keys d).
Proof.
  induction d as [|[k v] d IH]; simpl; [done|].
  destruct (String.eqb k key); simpl; by rewrite IH.
Qed.

Lemma NoDup_keys_del key d : NoDup (dict_keys d) -> NoDup (dict_keys (dict_del key d)).
Proof.
  rewrite dict_keys_del. rewrite !NoDup_ListNoDup. apply List.NoDup_filter.
Qed.

End DictFacts.

(** ** The loop over the input fields *)

Section CopyFields.

Implicit Types (data out : dict) (k : string) (v : json).

Lemma copy_fields_cons k v data out :
  copy_fields ((k, v) :: data) out
  = copy_fields data (if String.eqb k "sections" then out else dict_set k v out).
Proof. reflexivity. Qed.

(** The first field of the output keeps its place; its value is the
    input's when the input has the key. *)
Lemma copy_fields_head k v data out :
  k <> "sections" ->
  NoDup (dict_keys data) ->
  copy_fields data ((k, v) :: out)
  = (k, default v (dict_get k data)) :: copy_fields (dict_del k data) out.
Proof.
  intros Hk. revert v out.
  induction data as [|[k' v'] data IH]; intros v out Hnd; [done|].
  apply NoDup_cons in Hnd as [Hfresh Hnd].
  rewrite copy_fields_cons.
  cbn [dict_get dict_del dict_set List.filter fst snd].
  destruct (String.eqb_spec k' k) as [->|Hne].
  - destruct (String.eqb_spec k "sections") as [E|_]; [congruence|].
    rewrite String.eqb_refl. cbn [negb]. rewrite IH by done.
    replace (dict_get k data) with (@None json); [done|].
    symmetry. apply dict_get_absent. by rewrite <- list_elem_of_In.
  - cbn [negb]. rewrite copy_fields_cons.
    destruct (String.eqb_spec k' "sections") as [_|Hsec]; [by apply IH|].
    destruct (String.eqb_spec k k') as [E|_]; [congruence|]. by apply IH.
Qed.

(** Fields whose keys the output does not hold yet are appended in the
    input's order. *)
Lemma copy_fields_fresh data out :
  NoDup (dict_keys data) ->
  (forall k, In k (dict_keys out) -> ~ In k (dict_keys data)) ->
  copy_fields data out = out ++ dict_del "sections" data.
Proof.
  revert out. induction data as [|[k v] data IH]; intros out Hnd Hdisj.
  - simpl. by rewrite app_nil_r.
  - apply NoDup_cons in Hnd as [Hfresh Hnd].
    rewrite copy_fields_cons. simpl dict_del.
    destruct (String.eqb_spec k "sections") as [->|Hsec]; simpl.
    + apply IH; [done|]. intros k Hin Hk. apply (Hdisj k Hin). by right.
    + rewrite dict_set_absent.
      * rewrite IH; [by rewrite <- app_assoc | done |].
        intros k' Hin Hk'. unfold dict_keys in Hin.
        rewrite map_app in Hin. apply in_app_or in Hin as [Hin|[<-|[]]].
        -- apply (Hdisj k' Hin). by right.
        -- apply Hfresh. by apply list_elem_of_In.
      * apply dict_get_absent. intros Hin. apply (Hdisj k Hin). by left.
Qed.

End CopyFields.

(** ** The filter over the sections *)

Section FilterFacts.

Implicit Types (wanted : gset Z) (s : json) (l kept : list json).

Lemma selected_spec wanted s :
  selected wanted s = true <->
  exists d v n, s = JDict d /\ dict_get "section" d = Some v
                /\ equals_int v n /\ n ∈ wanted.
Proof.
  split.
  - destruct s as [| | | | | |d]; try discriminate. simpl.
    destruct (dict_get "section" d) as [v|] eqn:Hget; [|discriminate].
    destruct v as [|b|n|f| | |]; try discriminate.
    + intros H%bool_decide_eq_true. exists d, (JBool b), (if b then 1 else 0).
      repeat split; [done|constructor|done].
    + intros H%bool_decide_eq_true. exists d, (JInt n), n.
      repeat split; [done|constructor|done].
    + destruct (float_integral f) as [n|] eqn:Hf; [|discriminate].
      intros H%bool_decide_eq_true. exists d, (JFloat f), n.
      repeat split; [done|by constructor|done].
  - intros (d & v & n & -> & Hget & Heq & Hin). simpl. rewrite Hget.
    destruct Heq as [n|b|f n Hf]; rewrite ?Hf; by apply bool_decide_eq_true.
Qed.

Lemma keep_section_hashable wanted s :
  section_hashable s -> keep_section wanted s = Ok (selected wanted s).
Proof.
  intros Hs. destruct s as [| | | | | |d]; try reflexivity. simpl.
  destruct (dict_get "section" d) as [v|] eqn:Hget; [|reflexivity].
  specialize (Hs d v eq_refl Hget).
  destruct v as [|b|n|f| | |]; try discriminate; reflexivity.
Qed.

Lemma keep_section_unhashable wanted d v :
  dict_get "section" d = Some v -> hashable v = false ->
  exists msg, keep_section wanted (JDict d) = Raise (TypeError msg).
Proof.
  intros Hget Hv. simpl. rewrite Hget.
  destruct v; try discriminate; simpl; eauto.
Qed.

Lemma filter_sections_hashable wanted l :
  Forall section_hashable l ->
  filter_sections wanted l = Ok (List.filter (selected wanted) l).
Proof.
  induction 1 as [|s l Hs _ IH]; [done|].
  simpl. rewrite (keep_section_hashable _ _ Hs), IH. simpl.
  by destruct (selected wanted s).
Qed.

(** What the filter kept passes the filter again. *)
Lemma filter_sections_stable wanted l kept :
  filter_sections wanted l = Ok kept -> filter_sections wanted kept = Ok kept.
Proof.
  revert kept. induction l as [|s l IH]; intros kept; simpl.
  - by intros [= <-].
  - destruct (keep_section wanted s) as [keep|] eqn:Hkeep; [|discriminate].
    simpl. destruct (filter_sections wanted l) as [kept'|]; [|discriminate].
    simpl. intros [= <-]. specialize (IH kept' eq_refl).
    destruct keep; [|done]. simpl. by rewrite Hkeep, IH.
Qed.

Lemma select_sections_stable section_filter l kept :
  select_sections section_filter l = Ok kept ->
  select_sections section_filter kept = Ok kept.
Proof.
  destruct section_filter as [wanted|]; simpl; [|done].
  apply filter_sections_stable.
Qed.

End FilterFacts.

(** ** [build_output_structure] *)

Section OutputStructure.

Variables (data : dict) (seed : Z) (theme_text : string).
Variable section_filter : option (gset Z).

Lemma build_output_list all_sections :
  default (JList []) (dict_get "sections" data) = JList all_sections ->
  build_output_structure data seed theme_text section_filter
  = (kept <- select_sections section_filter all_sections ;;
     Ok (dict_set "sections" (JList kept) (copy_fields data (initial_output seed theme_text)))).
Proof. unfold build_output_structure. by intros ->. Qed.

Lemma build_output_not_list v :
  dict_get "sections" data = Some v -> is_list v = false ->
  build_output_structure data seed theme_text section_filter = Raise sections_error.
Proof.
  unfold build_output_structure. intros -> Hv. by destruct v.
Qed.

Lemma build_output_ok_inv out :
  build_output_structure data seed theme_text section_filter = Ok out ->
  exists all_sections kept,
    default (JList []) (dict_get "sections" data) = JList all_sections
    /\ select_sections section_filter all_sections = Ok kept
    /\ out = dict_set "sections" (JList kept) (copy_fields data (initial_output seed theme_text)).
Proof.
  unfold build_output_structure.
  destruct (default (JList []) (dict_get "sections" data)) as [| | | | |l|];
    try discriminate.
  destruct (select_sections section_filter l) as [kept|] eqn:Hsel; [|discriminate].
  simpl. intros [= <-]. by exists l, kept.
Qed.

(** The whole output, field by field, for an input with distinct keys. *)
Lemma build_output_shape out :
  NoDup (dict_keys data) ->
  build_output_structure data seed theme_text section_filter = Ok out ->
  exists all_sections kept,
    default (JList []) (dict_get "sections" data) = JList all_sections
    /\ select_sections section_filter all_sections = Ok kept
    /\ out = ("seed", default (JInt seed) (dict_get "seed" data))
             :: ("theme", default (JStr theme_text) (dict_get "theme" data))
             :: dict_del "sections" (dict_del "theme" (dict_del "seed" data))
             ++ [("sections", JList kept)].
Proof.
  intros Hnd (l & kept & Hl & Hsel & ->)%build_output_ok_inv.
  exists l, kept. split; [done|]. split; [done|].
  unfold initial_output.
  rewrite copy_fields_head by done.
  rewrite copy_fields_head by (done || by apply NoDup_keys_del).
  rewrite (dict_get_del_other "seed" "theme") by done.
  rewrite copy_fields_fresh; [|by do 2 apply NoDup_keys_del|by intros k []].
  cbn [dict_set app]. simpl String.eqb. cbv iota.
  do 2 f_equal. apply dict_set_absent, dict_get_del_same.
Qed.

End OutputStructure.

Lemma filter_sections_raises wanted l e :
  filter_sections wanted l = Raise e ->
  exists msg, e = TypeError ("unhashable type: " +:+ msg).
Proof.
  induction l as [|s l IH]; simpl; [discriminate|].
  destruct (keep_section wanted s) as [keep|e'] eqn:Hkeep; simpl.
  - destruct (filter_sections wanted l); simpl; [discriminate|].
    intros [= <-]. by apply IH.
  - intros [= <-]. destruct s as [| | | | | |d]; try discriminate.
    simpl in Hkeep. unfold set_contains in Hkeep.
    destruct (default JNull (dict_get "section" d)); try discriminate;
      simpl in Hkeep; injection Hkeep as <-; eauto.
Qed.

Ltac hashable_entries :=
  repeat constructor;
  let d := fresh "d" in let v := fresh "v" in let H := fresh "H" in
  intros d v [= <-] H; vm_compute in H; by simplify_eq.

(** The filter where it works.  When the "sections" value is a list in
    which no dict entry holds a list or a dict under "section", filtering
    with a selector set succeeds and the output "sections" list is the
    input list filtered, in order, by [selected]: the dict entries whose
    "section" value is a member of the set.  Entries that are not dicts
    and dict entries without a matching "section" value are dropped. *)
Theorem filter_keeps_selected data seed theme_text wanted all_sections :
  dict_get "sections" data = Some (JList all_sections) ->
  Forall section_hashable all_sections ->
  exists out,
    build_output_structure data seed theme_text (Some wanted) = Ok out
    /\ dict_get "sections" out
       = Some (JList (List.filter (selected wanted) all_sections)).
Proof.
  intros Hget Hhash. eexists. split.
  - rewrite (build_output_list _ _ _ _ all_sections) by by rewrite Hget.
    simpl. by rewrite (filter_sections_hashable _ _ Hhash).
  - apply dict_get_set_same.
Qed.

Lemma filter_keeps_selected_witness :
  exists out,
    build_output_structure sectioned_doc 42 "Hi" (Some {[2]}) = Ok out
    /\ dict_get "sections" out
       = Some (JList [JDict [("section", JInt 2); ("x", JStr "b")]]).
Proof.
  change [JDict [("section", JInt 2); ("x", JStr "b")]]
    with (List.filter (selected {[2]}) three_sections).
  apply (filter_keeps_selected sectioned_doc 42 "Hi" {[2]} three_sections).
  - reflexivity.
  - hashable_entries.
Defined.

(** C1 at a document with a list under "section".  The entry matches
    nothing and should be dropped like the entries around it; the
    membership test hashes the list first and raises, so the run ends in
    a [TypeError] and no output is produced. *)
Lemma unhashable_section_raises :
  build_output_structure mixed_doc 42 "Hi" (Some {[1]})
  = Raise (TypeError "unhashable type: 'list'")
  /\ ~ (exists out, build_output_structure mixed_doc 42 "Hi" (Some {[1]}) = Ok out).
Proof.
  split; [reflexivity|]. by intros [out H].
Qed.

(** C4 at a document that already has "seed" and "theme": the output
    holds the document's values for them, not the supplied ones. *)
Theorem seeded_doc_output :
  build_output_structure seeded_doc 42 "Hi" None
  = Ok [("seed", JInt 7); ("theme", JStr "old"); ("sections", JList [])].
Proof. reflexivity. Qed.

(** C6.  The sections error is raised exactly when the document has a
    "sections" key whose value is not a list; then no output is returned. *)
Theorem sections_error_iff data seed theme_text section_filter :
  (build_output_structure data seed theme_text section_filter = Raise sections_error
   <-> exists v, dict_get "sections" data = Some v /\ is_list v = false)
  /\ ((exists v, dict_get "sections" data = Some v /\ is_list v = false) ->
      forall out, build_output_structure data seed theme_text section_filter <> Ok out).
Proof.
  split; [split|].
  - destruct (dict_get "sections" data) as [v|] eqn:Hget.
    + destruct (is_list v) eqn:Hv; [|by eauto].
      destruct v as [| | | | |l|]; try discriminate.
      rewrite (build_output_list _ _ _ _ l) by by rewrite Hget.
      destruct section_filter as [wanted|]; simpl; [|discriminate].
      destruct (filter_sections wanted l) as [kept|e] eqn:Hf; simpl; [discriminate|].
      apply filter_sections_raises in Hf as [msg ->]. discriminate.
    + rewrite (build_output_list _ _ _ _ []) by by rewrite Hget.
      by destruct section_filter.
  - intros (v & Hget & Hv). by apply (build_output_not_list _ _ _ _ v).
  - intros (v & Hget & Hv) out.
    by rewrite (build_output_not_list _ _ _ _ v).
Qed.

(** C7.  Without a filter the output "sections" value is the input list
    itself, whatever its entries are. *)
Theorem no_filter_keeps_sections data seed theme_text all_sections :
  dict_get "sections" data = Some (JList all_sections) ->
  exists out,
    build_output_structure data seed theme_text None = Ok out
    /\ dict_get "sections" out = Some (JList all_sections).
Proof.
  intros Hget. eexists. split.
  - by rewrite (build_output_list _ _ _ _ all_sections) by by rewrite Hget.
  - apply dict_get_set_same.
Qed.

Lemma no_filter_keeps_sections_witness :
  exists out,
    build_output_structure mixed_doc 42 "Hi" None = Ok out
    /\ dict_get "sections" out
       = Some (JList [JInt 7; JDict [("section", JList [])]; JStr "s"]).
Proof.
  apply (no_filter_keeps_sections mixed_doc 42 "Hi"). reflexivity.
Defined.

(** C10.  A document without a "sections" key is accepted, with or
    without a filter, and the output "sections" value is the empty list. *)
Theorem missing_sections_default data seed theme_text section_filter :
  ~ In "sections" (dict_keys data) ->
  exists out,
    build_output_structure data seed theme_text section_filter = Ok out
    /\ dict_get "sections" out = Some (JList []).
Proof.
  intros Hget%dict_get_absent. eexists. split.
  - rewrite (build_output_list _ _ _ _ []) by by rewrite Hget.
    by destruct section_filter.
  - apply dict_get_set_same.
Qed.

Lemma missing_sections_default_witness :
  (exists out,
     build_output_structure [("title", JStr "T")] 42 "Hi" None = Ok out
     /\ dict_get "sections" out = Some (JList []))
  /\ (exists out,
        build_output_structure [("title", JStr "T")] 42 "Hi" (Some {[1; 2]}) = Ok out
        /\ dict_get "sections" out = Some (JList [])).
Proof.
  split; apply missing_sections_default; simpl; intros [H|[]]; discriminate.
Defined.

(** C8.  Take an output, delete its "seed" and "theme" fields and run the
    transformer again with the same filter (and any seed and theme): the
    run succeeds and its "sections" value is that of the first output. *)
Theorem filtering_is_idempotent
    data seed theme_text section_filter out seed' theme_text' :
  build_output_structure data seed theme_text section_filter = Ok out ->
  exists out',
    build_output_structure (dict_del "theme" (dict_del "seed" out))
      seed' theme_text' section_filter = Ok out'
    /\ dict_get "sections" out' = dict_get "sections" out.
Proof.
  intros (l & kept & _ & Hsel & ->)%build_output_ok_inv.
  rewrite dict_get_set_same.
  eexists. split.
  - rewrite (build_output_list _ _ _ _ kept).
    + by rewrite (select_sections_stable _ _ _ Hsel).
    + rewrite !dict_get_del_other by done. by rewrite dict_get_set_same.
  - apply dict_get_set_same.
Qed.

Lemma filtering_is_idempotent_witness :
  exists out',
    build_output_structure
      (dict_del "theme" (dict_del "seed"
         [("seed", JInt 42); ("theme", JStr "Hi");
          ("sections", JList [JDict [("section", JInt 2); ("x", JStr "b")]])]))
      1 "Lo" (Some {[2]}) = Ok out'
    /\ dict_get "sections" out'
       = dict_get "sections"
           [("seed", JInt 42); ("theme", JStr "Hi");
            ("sections", JList [JDict [("section", JInt 2); ("x", JStr "b")]])].
Proof.
  apply (filtering_is_idempotent sectioned_doc 42 "Hi" (Some {[2]})).
  vm_compute. reflexivity.
Defined.

(** C9.  For a document with distinct keys, the output starts with "seed"
    and then "theme"; when the document has a "seed" (a "theme") field of
    its own, the output holds the document's value for it, not the
    supplied one. *)
Theorem input_metadata_overwrites data seed theme_text section_filter out :
  NoDup (dict_keys data) ->
  build_output_structure data seed theme_text section_filter = Ok out ->
  exists s t rest,
    out = ("seed", s) :: ("theme", t) :: rest
    /\ (forall v, dict_get "seed" data = Some v -> s = v)
    /\ (forall v, dict_get "theme" data = Some v -> t = v).
Proof.
  intros Hnd (l & kept & _ & _ & ->)%build_output_shape; [|done].
  do 3 eexists. split; [reflexivity|].
  split; intros v ->; reflexivity.
Qed.

Lemma input_metadata_overwrites_witness :
  exists s t rest,
    [("seed", JInt 7); ("theme", JStr "old"); ("sections", JList [])]
    = ("seed", s) :: ("theme", t) :: rest
    /\ (forall v, dict_get "seed" seeded_doc = Some v -> s = v)
    /\ (forall v, dict_get "theme" seeded_doc = Some v -> t = v).
Proof.
  apply (input_metadata_overwrites seeded_doc 42 "Hi" None).
  - apply (bool_decide_unpack _). vm_compute. exact I.
  - reflexivity.
Defined.

(** X7.  The key order of C4, for a document with distinct keys that has
    no "seed" and no "theme" field: the supplied seed, the supplied theme,
    the document's other fields in their order, "sections" last. *)
Lemma output_key_order data seed theme_text section_filter out :
  NoDup (dict_keys data) ->
  ~ In "seed" (dict_keys data) ->
  ~ In "theme" (dict_keys data) ->
  build_output_structure data seed theme_text section_filter = Ok out ->
  exists kept,
    out = ("seed", JInt seed) :: ("theme", JStr theme_text)
          :: dict_del "sections" data ++ [("sections", JList kept)].
Proof.
  intros Hnd Hseed%dict_get_absent Htheme%dict_get_absent.
  intros (l & kept & _ & _ & ->)%build_output_shape; [|done].
  exists kept. rewrite Hseed, Htheme. simpl.
  by rewrite (dict_del_absent "seed"), (dict_del_absent "theme").
Qed.

(** Membership, not truthiness: section 0 is kept when 0 is wanted, and a
    bool or a whole float counts as the int it equals. *)
Example membership_examples :
  build_output_structure
    [("sections", JList [JDict [("section", JInt 0)]; JDict [("section", JInt 5)];
                         JDict [("section", JStr "0")]; JDict [("section", JNull)];
                         JDict [("section", JBool false)];
                         JDict [("section", JFloat (S754_zero false))]])]
    1 "" (Some {[0]})
  = Ok [("seed", JInt 1); ("theme", JStr "");
        ("sections", JList [JDict [("section", JInt 0)];
                            JDict [("section", JBool false)];
                            JDict [("section", JFloat (S754_zero false))]])].
Proof. reflexivity. Qed.

Example titled_doc_output :
  build_output_structure titled_doc 42 "Hi" None
  = Ok [("seed", JInt 42); ("theme", JStr "Hi"); ("title", JStr "T");
        ("sections", JList [])].
Proof. reflexivity. Qed.

(** ** Strings *)

Ltac each_char c :=
  destruct c as [[] [] [] [] [] [] [] []]; vm_compute; try reflexivity; try discriminate.

Section StringFacts.

Implicit Types (c sep : ascii) (s a b : string).

Lemma str_split1_absent sep s :
  str_contains sep s = false -> str_split1 sep s = [s].
Proof.
  induction s as [|c s IH]; simpl; [done|].
  destruct (Ascii.eqb c sep); simpl; [discriminate|].
  intros H. by rewrite IH.
Qed.

Lemma str_split1_cut sep a b :
  str_contains sep a = false -> str_split1 sep (a +:+ String sep b) = [a; b].
Proof.
  induction a as [|c a IH]; simpl.
  - by rewrite Ascii.eqb_refl.
  - destruct (Ascii.eqb c sep); simpl; [discriminate|].
    intros H. by rewrite IH.
Qed.

Lemma str_contains_cut sep a b : str_contains sep (a +:+ String sep b) = true.
Proof.
  induction a as [|c a IH]; simpl.
  - by rewrite Ascii.eqb_refl.
  - rewrite IH. apply orb_true_r.
Qed.

(** A string that holds [sep] is cut at the first one. *)
Lemma str_contains_split sep s :
  str_contains sep s = true ->
  exists a b, s = a +:+ String sep b /\ str_contains sep a = false.
Proof.
  induction s as [|c s IH]; simpl; [discriminate|].
  destruct (Ascii.eqb_spec c sep) as [->|Hc]; simpl.
  - intros _. by exists "", s.
  - intros (a & b & -> & Ha)%IH. exists (String c a), b. simpl.
    split; [done|]. rewrite Ha. by destruct (Ascii.eqb_spec c sep).
Qed.

Lemma str_cut_unique sep a b a' b' :
  str_contains sep a = false -> str_contains sep a' = false ->
  a +:+ String sep b = a' +:+ String sep b' -> a = a' /\ b = b'.
Proof.
  intros Ha Ha' Heq.
  pose proof (str_split1_cut sep a b Ha) as H.
  rewrite Heq, (str_split1_cut sep a' b' Ha') in H.
  by injection H as -> ->.
Qed.

Lemma str_split_absent sep s :
  str_contains sep s = false -> str_split sep s = [s].
Proof.
  induction s as [|c s IH]; simpl; [done|].
  destruct (Ascii.eqb c sep); simpl; [discriminate|].
  intros H. by rewrite IH.
Qed.

Lemma str_forall_impl (P Q : ascii -> bool) s :
  (forall c, P c = true -> Q c = true) ->
  str_forall P s = true -> str_forall Q s = true.
Proof.
  intros HPQ. induction s as [|c s IH]; simpl; [done|].
  intros [Hc Hs]%andb_true_iff. by rewrite (HPQ c Hc), IH.
Qed.

Lemma str_forall_contains (P : ascii -> bool) sep s :
  P sep = false -> str_forall P s = true -> str_contains sep s = false.
Proof.
  intros Hsep. induction s as [|c s IH]; simpl; [done|].
  intros [Hc Hs]%andb_true_iff. rewrite IH by done.
  destruct (Ascii.eqb_spec c sep) as [->|_]; [congruence|done].
Qed.

Lemma str_rstrip_no_space s :
  str_forall (fun c => negb (isspace c)) s = true -> str_rstrip s = s.
Proof.
  induction s as [|c s IH]; simpl; [done|].
  intros [Hc Hs]%andb_true_iff. rewrite IH by done.
  by destruct (isspace c).
Qed.

Lemma str_strip_no_space s :
  str_forall (fun c => negb (isspace c)) s = true -> str_strip s = s.
Proof.
  intros Hs. unfold str_strip.
  replace (str_lstrip s) with s; [by apply str_rstrip_no_space|].
  destruct s as [|c s]; simpl in *; [done|].
  by destruct (isspace c).
Qed.

Lemma repr_char_plain c :
  is_plain_char c = true -> repr_char squote c = String c "".
Proof. each_char c. Qed.

Lemma repr_body_plain s :
  str_forall is_plain_char s = true -> repr_body squote s = s.
Proof.
  induction s as [|c s IH]; simpl; [done|].
  intros [Hc Hs]%andb_true_iff. by rewrite repr_char_plain, IH.
Qed.

(** [repr] of a string of plain characters: the string in single quotes. *)
Lemma py_repr_plain s :
  str_forall is_plain_char s = true ->
  py_repr s = String squote (s +:+ String squote "").
Proof.
  intros Hs. unfold py_repr.
  rewrite (str_forall_contains is_plain_char squote s) by done.
  simpl. by rewrite repr_body_plain.
Qed.

Lemma literal_char_plain c : is_literal_char c = true -> is_plain_char c = true.
Proof. each_char c. Qed.

Lemma literal_char_no_space c : is_literal_char c = true -> negb (isspace c) = true.
Proof. each_char c. Qed.

End StringFacts.

(** ** Decimal literals *)

Lemma uint_literal_chars d :
  str_forall is_literal_char (NilEmpty.string_of_uint d) = true.
Proof. induction d; simpl; by rewrite ?IHd. Qed.

Lemma decimal_literal_chars n :
  str_forall is_literal_char (decimal_literal n) = true.
Proof.
  unfold decimal_literal.
  destruct (Z.to_int n) as [d|d]; simpl; destruct d; try reflexivity;
    apply (uint_literal_chars (_ d)).
Qed.

Lemma decimal_literal_negative n :
  n < 0 -> exists digits, decimal_literal n = String "-" digits.
Proof. destruct n; try lia. intros _. by eexists. Qed.

(** ** Ranges *)

Lemma in_py_range start stop n :
  In n (py_range start stop) <-> start <= n < stop.
Proof.
  unfold py_range. rewrite in_map_iff. split.
  - intros (i & <- & Hi%in_seq). lia.
  - intros Hn. exists (Z.to_nat (n - start)). split; [lia|].
    apply in_seq. lia.
Qed.

Lemma elem_of_add_all (l : list Z) (sections : gset Z) n :
  n ∈ fold_left (fun acc s => {[s]} ∪ acc) l sections <-> n ∈ sections \/ In n l.
Proof.
  revert sections. induction l as [|x l IH]; intros sections; simpl.
  - tauto.
  - rewrite IH, elem_of_union, elem_of_singleton. intuition congruence.
Qed.

Lemma elem_of_add_range start end_ (sections : gset Z) n :
  n ∈ add_range start end_ sections <-> n ∈ sections \/ start <= n <= end_.
Proof.
  unfold add_range. rewrite elem_of_add_all, in_py_range.
  split; (intros [?|?]; [by left|right; lia]).
Qed.

(** ** One chunk *)

Section ChunkFacts.

Implicit Types (chunk t : string) (sections : gset Z).

Lemma token_denotes_nonempty t lo hi : token_denotes t lo hi -> is_empty t = false.
Proof.
  intros [t' n _ Hn|a b x y _ _ _].
  - by destruct t'.
  - by destruct a.
Qed.

Lemma token_denotes_fun t lo hi lo' hi' :
  token_denotes t lo hi -> token_denotes t lo' hi' -> lo = lo' /\ hi = hi'.
Proof.
  intros H H'. destruct H as [t n Hdash Hn|a b x y Ha Hx Hy].
  - inversion H' as [t' n' _ Hn'|a' b' x' y' _ _ _ Heq]; subst.
    + split; congruence.
    + by rewrite str_contains_cut in Hdash.
  - inversion H' as [t' n' Hdash _|a' b' x' y' Ha' Hx' Hy' Heq]; subst.
    + by rewrite str_contains_cut in Hdash.
    + apply str_cut_unique in Heq as [-> ->]; [|done..].
      split; congruence.
Qed.

Lemma token_invalid_single t :
  str_contains "-" t = false -> py_int t = None -> ~ token_valid t.
Proof.
  intros Hdash Hn (lo & hi & H).
  inversion H as [t' n Hd Hn'|a b x y Ha Hx Hy Heq]; subst.
  - congruence.
  - by rewrite str_contains_cut in Hdash.
Qed.

Lemma token_invalid_range a b :
  str_contains "-" a = false ->
  py_int a = None \/ py_int b = None ->
  ~ token_valid (a +:+ String "-" b).
Proof.
  intros Ha Hnone (lo & hi & H).
  inversion H as [t' n Hd _|a' b' x' y' Ha' Hx' Hy' Heq]; subst.
  - by rewrite str_contains_cut in Hd.
  - apply str_cut_unique in Heq as [-> ->]; [|done..].
    destruct Hnone; congruence.
Qed.

Lemma token_valid_dec t : token_valid t \/ ~ token_valid t.
Proof.
  destruct (str_contains "-" t) eqn:Hdash.
  - destruct (str_contains_split _ _ Hdash) as (a & b & -> & Ha).
    destruct (py_int a) as [x|] eqn:Hx; [destruct (py_int b) as [y|] eqn:Hy|].
    + left. do 2 eexists. by constructor.
    + right. apply token_invalid_range; auto.
    + right. apply token_invalid_range; auto.
  - destruct (py_int t) as [n|] eqn:Hn.
    + left. do 2 eexists. by constructor.
    + right. by apply token_invalid_single.
Qed.

Lemma parse_chunk_blank chunk sections :
  is_empty (str_strip chunk) = true -> parse_chunk chunk sections = Ok sections.
Proof. unfold parse_chunk. by intros ->. Qed.

(** What one turn of the loop does with a token: it adds the integers
    the token stands for, or it raises the error for that token. *)
Lemma parse_chunk_token chunk sections :
  is_empty (str_strip chunk) = false ->
  (exists lo hi sections',
      token_denotes (str_strip chunk) lo hi
      /\ parse_chunk chunk sections = Ok sections'
      /\ forall n, n ∈ sections' <-> n ∈ sections \/ lo <= n <= hi)
  \/ (~ token_valid (str_strip chunk)
      /\ parse_chunk chunk sections = Raise (token_error (str_strip chunk))).
Proof.
  unfold parse_chunk, token_error. generalize (str_strip chunk) as t.
  intros t ->.
  destruct (str_contains "-" t) eqn:Hdash.
  - destruct (str_contains_split _ _ Hdash) as (a & b & Ht & Ha).
    assert (str_split1 "-" t = [a; b]) as -> by (rewrite Ht; by apply str_split1_cut).
    destruct (py_int a) as [x|] eqn:Hx; [destruct (py_int b) as [y|] eqn:Hy|].
    + left. exists (Z.min x y), (Z.max x y).
      destruct (Z.ltb_spec y x); eexists;
        (split; [rewrite Ht; by constructor|]); (split; [reflexivity|]);
        intros n; rewrite elem_of_add_range;
        split; (intros [?|?]; [by left|right; lia]).
    + right. split; [|done]. rewrite Ht. apply token_invalid_range; auto.
    + right. split; [|done]. rewrite Ht. apply token_invalid_range; auto.
  - destruct (py_int t) as [n|] eqn:Hn.
    + left. exists n, n. eexists. split; [by constructor|].
      split; [reflexivity|]. intros n'.
      rewrite elem_of_union, elem_of_singleton.
      split; [intros [->|?]; [right; lia|by left] | intros [?|?]; [by right|left; lia]].
    + right. split; [|done]. by apply token_invalid_single.
Qed.

End ChunkFacts.

(** ** What [int] accepts *)

Section IntFacts.

Implicit Types (c : ascii) (s w rest : string) (n : Z).

Lemma ascii_space_isspace c : is_ascii_space c = true -> isspace c = true.
Proof. each_char c. Qed.

Lemma digit_value_int_char c d : digit_value c = Some d -> is_int_char c = true.
Proof.
  unfold digit_value, is_int_char. by destruct (between 48 57 (ord c)).
Qed.

Lemma skip_spaces_blank s :
  is_empty (skip_spaces s) = true -> str_forall is_ascii_space s = true.
Proof.
  induction s as [|c s IH]; simpl; [done|].
  destruct (is_ascii_space c); simpl; [done|discriminate].
Qed.

Lemma skip_spaces_head c s : is_ascii_space c = false -> skip_spaces (String c s) = String c s.
Proof. simpl. by intros ->. Qed.

(** A scan that ends before trailing blanks has read digits and
    underscores only. *)
Lemma scan_digits_chars w prev acc digits value digits' rest :
  scan_digits w prev acc digits = Some (value, digits', rest) ->
  is_empty (skip_spaces rest) = true ->
  str_forall is_int_char w = true.
Proof.
  revert prev acc digits.
  induction w as [|c w IH]; intros prev acc digits; simpl; [done|].
  destruct (digit_value c) as [d|] eqn:Hd.
  - intros Hscan Hrest. rewrite (digit_value_int_char _ _ Hd). eauto.
  - destruct (Ascii.eqb c "_") eqn:Hc.
    + destruct (Ascii.eqb prev "_"); [discriminate|].
      intros Hscan Hrest. unfold is_int_char at 1. rewrite Hc, orb_true_r. eauto.
    + destruct (Ascii.eqb prev "_"); [discriminate|].
      intros [= _ _ <-] Hrest%skip_spaces_blank.
      revert Hrest. apply (str_forall_impl is_ascii_space is_int_char).
      intros c' Hc'. unfold is_int_char. rewrite Hc'. apply orb_true_r.
Qed.

Lemma py_int_inv s n :
  py_int s = Some n ->
  exists sign w, read_sign (skip_spaces (to_ascii s)) = (sign, w)
                 /\ is_empty w = false /\ str_forall is_int_char w = true.
Proof.
  unfold py_int. destruct (read_sign (skip_spaces (to_ascii s))) as [sign w].
  destruct (starts_with "_" w); [discriminate|].
  destruct (scan_digits w zero 0 0) as [[[value digits] rest]|] eqn:Hscan;
    [|discriminate].
  destruct (digits =? 0)%nat eqn:Hdigits; [discriminate|].
  destruct (is_empty (skip_spaces rest)) eqn:Hrest; [|discriminate].
  intros _. exists sign, w. split; [done|]. split.
  - destruct w; [|done]. simpl in Hscan. by injection Hscan as _ <- _.
  - by apply (scan_digits_chars _ _ _ _ _ _ _ Hscan).
Qed.

(** Above ASCII the text is rewritten character by character; no dash
    comes or goes unless a question mark shows up. *)
Lemma transform_chars_dash s :
  str_contains "?" (transform_chars s) = false ->
  str_contains "-" s = str_contains "-" (transform_chars s).
Proof.
  induction s as [|c s IH]; simpl; [done|].
  destruct (ord c <? 127)%N eqn:Hc; simpl.
  - intros [_ Hs]%orb_false_iff. by rewrite IH.
  - destruct (isspace c) eqn:Hsp; simpl; [|discriminate].
    intros Hs. rewrite <- IH by done.
    destruct (Ascii.eqb_spec c "-") as [->|_]; [discriminate|done].
Qed.

Lemma to_ascii_dash s :
  str_contains "?" (to_ascii s) = false ->
  str_contains "-" s = str_contains "-" (to_ascii s).
Proof.
  unfold to_ascii. destruct (all_ascii s); [done|]. apply transform_chars_dash.
Qed.

Lemma to_ascii_head c s :
  isspace c = false ->
  to_ascii (String c s) = "?" \/ exists u, to_ascii (String c s) = String c u.
Proof.
  intros Hc. unfold to_ascii. destruct (all_ascii (String c s)); [eauto|].
  simpl. rewrite Hc. destruct (ord c <? 127)%N; eauto.
Qed.

(** In a literal that begins neither with whitespace nor with a dash,
    there is no dash at all. *)
Lemma py_int_no_dash c s n :
  isspace c = false -> c <> "-"%char ->
  py_int (String c s) = Some n ->
  str_contains "-" (String c s) = false.
Proof.
  intros Hsp Hdash Hint.
  destruct (py_int_inv _ _ Hint) as (sign & w & Hsign & Hne & Hw).
  assert (is_ascii_space c = false) as Hasp.
  { destruct (is_ascii_space c) eqn:E; [|done].
    apply ascii_space_isspace in E. congruence. }
  destruct (to_ascii_head c s Hsp) as [Hq|[u Hu]].
  - rewrite Hq in Hsign. injection Hsign as _ <-. discriminate.
  - assert (str_forall (fun c' => is_int_char c' || Ascii.eqb c' "+") (String c u) = true)
      as Hall.
    { rewrite Hu, skip_spaces_head in Hsign by done. simpl in Hsign.
      destruct (Ascii.eqb c "+") eqn:Hplus.
      - injection Hsign as _ <-. simpl. rewrite Hplus, orb_true_r. simpl.
        revert Hw. apply str_forall_impl. by intros c' ->.
      - destruct (Ascii.eqb_spec c "-"); [done|]. injection Hsign as _ <-.
        revert Hw. apply str_forall_impl. by intros c' ->. }
    rewrite to_ascii_dash; rewrite Hu.
    + revert Hall. by apply str_forall_contains.
    + revert Hall. by apply str_forall_contains.
Qed.

End IntFacts.

(** ** The two readings of a token *)

Section Readings.

Implicit Types (t a b : string) (lo hi : Z).

Lemma py_int_nonempty s n : py_int s = Some n -> is_empty s = false.
Proof. by destruct s. Qed.

Lemma token_denotes_literal t lo hi :
  token_denotes t lo hi -> literal_denotes t lo hi /\ starts_with "-" t = false.
Proof.
  intros [t' n Hdash Hn|a b x y Ha Hx Hy].
  - split; [by constructor|]. destruct t' as [|c t']; [done|].
    simpl in *. by apply orb_false_iff in Hdash as [-> _].
  - split; [by constructor|]. destruct a as [|c a]; [done|].
    simpl in *. by apply orb_false_iff in Ha as [-> _].
Qed.

Lemma literal_denotes_token t lo hi :
  trimmed t -> starts_with "-" t = false ->
  literal_denotes t lo hi -> token_denotes t lo hi.
Proof.
  intros (c & rest & Ht & Hc) Hdash Hlit.
  assert (c <> "-"%char) as Hc'.
  { intros ->. by rewrite Ht in Hdash. }
  destruct Hlit as [t n Hn|a b x y Hx Hy].
  - constructor; [|done]. subst t. by apply (py_int_no_dash _ _ n).
  - constructor; [|done..]. destruct a as [|c' a]; [done|].
    simpl in Ht. injection Ht as -> _. by apply (py_int_no_dash _ _ x).
Qed.

(** For a trimmed token, valid means accepted. *)
Lemma token_valid_accepted t : trimmed t -> token_valid t <-> accepted t.
Proof.
  intros Ht. split.
  - intros (lo & hi & [Hlit Hdash]%token_denotes_literal). split; [eauto|done].
  - intros [(lo & hi & Hlit) Hdash]. exists lo, hi. by apply literal_denotes_token.
Qed.

Lemma str_strip_trimmed s : is_empty (str_strip s) = false -> trimmed (str_strip s).
Proof.
  unfold str_strip.
  assert (str_lstrip s = "" \/ trimmed (str_lstrip s)) as [->|(c & rest & -> & Hc)].
  { induction s as [|c s IH]; simpl; [by left|].
    destruct (isspace c) eqn:Hc; [done|]. right. by exists c, s. }
  - discriminate.
  - simpl. rewrite Hc. simpl. intros _. by exists c, (str_rstrip rest).
Qed.

Lemma chunk_tokens_trimmed chunks t : In t (chunk_tokens chunks) -> trimmed t.
Proof.
  unfold chunk_tokens. rewrite filter_In, in_map_iff.
  intros [(chunk & <- & _) Hne]. apply str_strip_trimmed.
  by destruct (is_empty (str_strip chunk)).
Qed.

Lemma tokens_valid_accepted (l : list string) :
  (forall t, In t l -> trimmed t) ->
  Forall token_valid l <-> Forall accepted l.
Proof.
  intros Hl. rewrite !List.Forall_forall.
  split; intros H t Hin; apply (token_valid_accepted t (Hl t Hin)); auto.
Qed.

End Readings.

(** ** The loop over the chunks *)

Section LoopFacts.

Implicit Types (chunks : list string) (sections : gset Z).

Lemma chunk_tokens_cons chunk chunks :
  chunk_tokens (chunk :: chunks)
  = if is_empty (str_strip chunk) then chunk_tokens chunks
    else str_strip chunk :: chunk_tokens chunks.
Proof. unfold chunk_tokens. simpl. by destruct (is_empty (str_strip chunk)). Qed.

(** When every token is valid the loop ends normally, and the set it
    returns holds what it started with and what the tokens stand for. *)
Lemma parse_chunks_valid chunks sections :
  Forall token_valid (chunk_tokens chunks) ->
  exists sections',
    parse_chunks chunks sections = Ok sections'
    /\ forall n, n ∈ sections' <->
                 n ∈ sections
                 \/ exists t lo hi,
                      In t (chunk_tokens chunks) /\ token_denotes t lo hi /\ lo <= n <= hi.
Proof.
  revert sections. induction chunks as [|chunk chunks IH]; intros sections Hall.
  - exists sections. split; [done|]. intros n. split; [by left|].
    by intros [?|(t & lo & hi & [] & _)].
  - rewrite chunk_tokens_cons in *. simpl.
    destruct (is_empty (str_strip chunk)) eqn:Hempty.
    + rewrite parse_chunk_blank by done. simpl. by apply IH.
    + apply Forall_cons in Hall as [Hvalid Hall].
      destruct (parse_chunk_token chunk sections Hempty)
        as [(lo & hi & mid & Hden & -> & Hmid)|[Hbad _]]; [|done].
      simpl. destruct (IH mid Hall) as (sections' & -> & Hsec).
      exists sections'. split; [done|]. intros n. rewrite Hsec, Hmid. split.
      * intros [[?|?]|(t & lo' & hi' & Hin & Ht & Hn)]; [by left|right..].
        -- exists (str_strip chunk), lo, hi. split; [by left|done].
        -- exists t, lo', hi'. split; [by right|done].
      * intros [?|(t & lo' & hi' & [<-|Hin] & Ht & Hn)]; [by left; left|..].
        -- destruct (token_denotes_fun _ _ _ _ _ Hden Ht) as [<- <-].
           by left; right.
        -- right. by exists t, lo', hi'.
Qed.

(** The loop raises exactly at the first token that is not valid, with
    the error for that token. *)
Lemma parse_chunks_raises chunks sections e :
  parse_chunks chunks sections = Raise e <->
  exists pre t post,
    chunk_tokens chunks = pre ++ t :: post
    /\ Forall token_valid pre /\ ~ token_valid t /\ e = token_error t.
Proof.
  revert sections. induction chunks as [|chunk chunks IH]; intros sections.
  - split; [discriminate|]. by intros ([|??] & ? & ? & ? & _).
  - rewrite chunk_tokens_cons. simpl.
    destruct (is_empty (str_strip chunk)) eqn:Hempty.
    + rewrite parse_chunk_blank by done. simpl. apply IH.
    + destruct (parse_chunk_token chunk sections Hempty)
        as [(lo & hi & mid & Hden & -> & _)|[Hbad ->]]; simpl.
      * rewrite IH. split.
        -- intros (pre & t & post & -> & Hpre & Ht & ->).
           exists (str_strip chunk :: pre), t, post.
           repeat split; [|done]. constructor; [by exists lo, hi|done].
        -- intros ([|p pre] & t & post & Heq & Hpre & Ht & ->);
             simpl in Heq; injection Heq as <- ->.
           ++ destruct Ht. by exists lo, hi.
           ++ apply Forall_cons in Hpre as [_ Hpre]. by exists pre, t, post.
      * split.
        -- intros [= <-]. by exists [], (str_strip chunk), (chunk_tokens chunks).
        -- intros ([|p pre] & t & post & Heq & Hpre & Ht & ->);
             simpl in Heq; injection Heq as <- _; [done|].
           by apply Forall_cons in Hpre as [? _].
Qed.

Lemma first_invalid_token (l : list string) :
  Exists (fun t => ~ token_valid t) l ->
  exists pre t post, l = pre ++ t :: post /\ Forall token_valid pre /\ ~ token_valid t.
Proof.
  induction 1 as [t l Ht|t l _ IH].
  - by exists [], t, l.
  - destruct (token_valid_dec t) as [Hv|Hv].
    + destruct IH as (pre & t' & post & -> & Hpre & Ht').
      exists (t :: pre), t', post. repeat split; [by constructor|done].
    + by exists [], t, l.
Qed.

End LoopFacts.

(** ** [parse_section_spec] *)

(** With valid tokens only the parser returns the union of what the
    tokens stand for. *)
Lemma parse_tokens_valid spec :
  Forall token_valid (tokens spec) ->
  exists sections,
    parse_section_spec spec = Ok sections
    /\ forall n, n ∈ sections <->
          exists t lo hi,
            In t (tokens spec) /\ token_denotes t lo hi /\ lo <= n <= hi.
Proof.
  intros Hall. unfold parse_section_spec.
  destruct (parse_chunks_valid (str_split "," spec) ∅ Hall) as (sections & -> & Hsec).
  exists sections. split; [done|].
  intros n. rewrite Hsec. split; [|by right].
  intros [Hn|?]; [|done]. by apply not_elem_of_empty in Hn.
Qed.

Lemma tokens_trimmed spec t : In t (tokens spec) -> trimmed t.
Proof. apply chunk_tokens_trimmed. Qed.

(** C2, as amended.  When every token of the spec is an integer literal
    or two integer literals with a dash between them, and no token begins
    with a dash, the parser returns the union of what the tokens stand
    for: the integer itself, or every integer between the two bounds,
    whichever order they come in.  Empty chunks add nothing, and a spec
    without tokens gives the empty set. *)
Theorem parse_accepted_spec spec :
  Forall accepted (tokens spec) ->
  exists sections,
    parse_section_spec spec = Ok sections
    /\ (forall n, n ∈ sections <->
          exists t lo hi,
            In t (tokens spec) /\ literal_denotes t lo hi /\ lo <= n <= hi)
    /\ (tokens spec = [] -> sections = ∅).
Proof.
  intros Hall.
  assert (Forall token_valid (tokens spec)) as Hvalid
    by (apply tokens_valid_accepted; [apply tokens_trimmed|done]).
  destruct (parse_tokens_valid spec Hvalid) as (sections & Hparse & Hsec).
  exists sections. split; [done|].
  assert (forall n, n ∈ sections <->
            exists t lo hi,
              In t (tokens spec) /\ literal_denotes t lo hi /\ lo <= n <= hi) as Hiff.
  { intros n. rewrite Hsec. split.
    - intros (t & lo & hi & Hin & [Hlit _]%token_denotes_literal & Hn). eauto 6.
    - intros (t & lo & hi & Hin & Hlit & Hn). exists t, lo, hi.
      split; [done|]. split; [|done].
      rewrite List.Forall_forall in Hall. destruct (Hall t Hin) as [_ Hdash].
      apply literal_denotes_token; [by apply (tokens_trimmed spec)|done..]. }
  split; [done|]. intros Hnil. apply set_eq. intros n. rewrite Hiff, Hnil.
  split; [by intros (t & lo & hi & [] & _)|].
  intros Hn. by apply not_elem_of_empty in Hn.
Qed.

Lemma parse_accepted_spec_witness :
  exists sections,
    parse_section_spec "1,3-5,7" = Ok sections
    /\ (forall n, n ∈ sections <->
          exists t lo hi,
            In t (tokens "1,3-5,7") /\ literal_denotes t lo hi /\ lo <= n <= hi)
    /\ (tokens "1,3-5,7" = [] -> sections = ∅).
Proof.
  apply parse_accepted_spec.
  change (tokens "1,3-5,7") with ["1"; "3-5"; "7"].
  repeat constructor.
  - exists 1, 1. by apply literal_single.
  - exists (Z.min 3 5), (Z.max 3 5). by apply (literal_pair "3" "5" 3 5).
  - exists 7, 7. by apply literal_single.
Defined.

(** C2 as stated fails: the token "-5" is an integer literal, and the
    parser cuts it at its dash and rejects it. *)
Lemma negative_token_rejected :
  tokens "-5" = ["-5"]
  /\ literal_denotes "-5" (-5) (-5)
  /\ parse_section_spec "-5" = Raise (ValueError "Invalid section range: '-5'").
Proof. split; [reflexivity|]. split; [by constructor|reflexivity]. Qed.

(** C3, as amended.  The decimal literal of a negative integer is not a
    valid token: it is cut at its leading dash, the part before the dash is
    empty, and the parser raises the range error for it. *)
Theorem negative_literal_rejected n :
  n < 0 ->
  parse_section_spec (decimal_literal n)
  = Raise (ValueError ("Invalid section range: '" +:+ decimal_literal n +:+ "'")).
Proof.
  intros Hn. pose proof (decimal_literal_chars n) as Hchars.
  destruct (decimal_literal_negative n Hn) as [digits Hlit].
  unfold parse_section_spec.
  rewrite str_split_absent by by apply (str_forall_contains is_literal_char).
  simpl. unfold parse_chunk.
  rewrite str_strip_no_space
    by (revert Hchars; apply str_forall_impl, literal_char_no_space).
  unfold range_error.
  rewrite py_repr_plain
    by (revert Hchars; apply str_forall_impl, literal_char_plain).
  rewrite Hlit. reflexivity.
Qed.

Lemma negative_literal_rejected_witness :
  parse_section_spec "-5" = Raise (ValueError "Invalid section range: '-5'").
Proof. apply (negative_literal_rejected (-5)). lia. Defined.

(** C3 as stated fails at -12. *)
Lemma negative_literal_not_singleton :
  decimal_literal (-12) = "-12"
  /\ parse_section_spec (decimal_literal (-12))
     = Raise (ValueError "Invalid section range: '-12'")
  /\ parse_section_spec (decimal_literal (-12)) <> Ok {[ -12 ]}.
Proof. repeat split. discriminate. Qed.

(** The parser raises at the first token that is not valid. *)
Lemma parse_tokens_raise spec e :
  parse_section_spec spec = Raise e <->
  exists pre t post,
    tokens spec = pre ++ t :: post
    /\ Forall token_valid pre /\ ~ token_valid t /\ e = token_error t.
Proof. apply parse_chunks_raises. Qed.

Lemma token_error_message t :
  token_error t
  = ValueError
      ((if str_contains "-" t then "Invalid section range: "
        else "Invalid section value: ") +:+ py_repr t).
Proof. unfold token_error. by destruct (str_contains "-" t). Qed.

(** C5, as amended.  The parser raises exactly when some token is not
    accepted: it is neither an integer literal nor two integer literals
    with a dash between them, or it begins with a dash.  The error is a
    [ValueError] for the first such token; its message is "Invalid section
    range: " when the token holds a dash and "Invalid section value: " when
    it does not, followed by the [repr] of the token (the token in
    quotes). *)
Theorem parse_error_iff spec :
  ((exists e, parse_section_spec spec = Raise e)
   <-> Exists (fun t => ~ accepted t) (tokens spec))
  /\ (forall e,
        parse_section_spec spec = Raise e <->
        exists pre t post,
          tokens spec = pre ++ t :: post
          /\ Forall accepted pre
          /\ ~ accepted t
          /\ e = ValueError
                   ((if str_contains "-" t then "Invalid section range: "
                     else "Invalid section value: ") +:+ py_repr t)).
Proof.
  assert (forall pre t post,
            tokens spec = pre ++ t :: post ->
            (Forall token_valid pre <-> Forall accepted pre)
            /\ (token_valid t <-> accepted t)) as Hsame.
  { intros pre t post Heq. split.
    - apply tokens_valid_accepted. intros t' Hin.
      apply (tokens_trimmed spec). rewrite Heq. apply in_or_app. by left.
    - apply token_valid_accepted, (tokens_trimmed spec).
      rewrite Heq. apply in_or_app. right. by left. }
  assert (forall e,
            parse_section_spec spec = Raise e <->
            exists pre t post,
              tokens spec = pre ++ t :: post
              /\ Forall accepted pre /\ ~ accepted t /\ e = token_error t)
    as Hfirst.
  { intros e. rewrite parse_tokens_raise.
    split; intros (pre & t & post & Heq & Hpre & Ht & ->);
      destruct (Hsame pre t post Heq) as [Hp Hv];
      exists pre, t, post; tauto. }
  split.
  - split.
    + intros [e (pre & t & post & -> & _ & Ht & _)%Hfirst].
      apply Exists_app. right. by left.
    + intros Hex. assert (Exists (fun t => ~ token_valid t) (tokens spec)) as Hex'.
      { rewrite List.Exists_exists in *. destruct Hex as (t & Hin & Ht).
        exists t. split; [done|]. intros Hv. apply Ht.
        by apply token_valid_accepted; [apply (tokens_trimmed spec)|]. }
      apply first_invalid_token in Hex' as (pre & t & post & Heq & Hpre & Ht).
      exists (token_error t). apply parse_tokens_raise. by exists pre, t, post.
  - intros e. rewrite Hfirst.
    split; intros (pre & t & post & Heq & Hpre & Ht & ->);
      exists pre, t, post; by rewrite token_error_message in *.
Qed.

(** C5 as stated fails: the message holds the token in quotes. *)
Lemma error_message_quotes_token :
  parse_section_spec "a" = Raise (ValueError "Invalid section value: 'a'")
  /\ parse_section_spec "a" <> Raise (ValueError "Invalid section value: a").
Proof. split; [reflexivity|discriminate]. Qed.

Example parse_examples :
  parse_section_spec "" = Ok ∅
  /\ parse_section_spec ",," = Ok ∅
  /\ parse_section_spec "2-4" = Ok {[2; 3; 4]}
  /\ parse_section_spec "7-3" = Ok {[3; 4; 5; 6; 7]}
  /\ parse_section_spec "1,3-5,7" = Ok {[1; 3; 4; 5; 7]}
  /\ parse_section_spec " 1 , 3 - 5 ,7," = Ok {[1; 3; 4; 5; 7]}.
Proof. repeat split; vm_compute; reflexivity. Qed.

Example parse_error_examples :
  parse_section_spec "3-b" = Raise (ValueError "Invalid section range: '3-b'")
  /\ parse_section_spec "-" = Raise (ValueError "Invalid section range: '-'")
  /\ parse_section_spec "3-" = Raise (ValueError "Invalid section range: '3-'")
  /\ parse_section_spec "1,x,-" = Raise (ValueError "Invalid section value: 'x'").
Proof. repeat split. Qed.


(** * Further properties *)

(** ** The parser: order, concatenation *)

Lemma str_split_nonempty sep s : str_split sep s <> [].
Proof.
  destruct s as [|c s]; simpl; [done|].
  destruct (Ascii.eqb c sep); [done|]. by destruct (str_split sep s).
Qed.

(** Splitting a string that is two strings joined by the separator. *)
Lemma str_split_join sep a b :
  str_split sep (a +:+ String sep b) = str_split sep a ++ str_split sep b.
Proof.
  induction a as [|c a IH]; simpl.
  - by rewrite Ascii.eqb_refl.
  - destruct (Ascii.eqb c sep); [by rewrite IH|].
    rewrite IH. pose proof (str_split_nonempty sep a).
    by destruct (str_split sep a).
Qed.

Lemma parse_chunks_app chunks chunks' (sections : gset Z) :
  parse_chunks (chunks ++ chunks') sections
  = (sections' <- parse_chunks chunks sections ;; parse_chunks chunks' sections').
Proof.
  revert sections. induction chunks as [|chunk chunks IH]; intros sections; [done|].
  simpl. destruct (parse_chunk chunk sections); simpl; [apply IH|done].
Qed.

Lemma add_range_union start end_ (sections : gset Z) :
  add_range start end_ sections = sections ∪ add_range start end_ ∅.
Proof.
  apply set_eq. intros n.
  rewrite elem_of_union, !elem_of_add_range, elem_of_empty. tauto.
Qed.

(** What a turn of the loop adds does not depend on what was there. *)
Lemma parse_chunk_union chunk (sections : gset Z) :
  parse_chunk chunk sections
  = (added <- parse_chunk chunk ∅ ;; Ok (sections ∪ added)).
Proof.
  unfold parse_chunk.
  destruct (is_empty (str_strip chunk)); simpl; [by rewrite union_empty_r_L|].
  destruct (str_contains "-" (str_strip chunk)).
  - destruct (str_split1 "-" (str_strip chunk)) as [|a [|b [|]]]; try done.
    destruct (py_int a) as [x|]; [|done]. destruct (py_int b) as [y|]; [|done].
    destruct (y <? x); simpl; by rewrite add_range_union.
  - destruct (py_int (str_strip chunk)); simpl; [|done].
    f_equal. rewrite union_empty_r_L. apply union_comm_L.
Qed.

Lemma parse_chunks_union chunks (sections : gset Z) :
  parse_chunks chunks sections
  = (added <- parse_chunks chunks ∅ ;; Ok (sections ∪ added)).
Proof.
  revert sections. induction chunks as [|chunk chunks IH]; intros sections; simpl.
  - by rewrite union_empty_r_L.
  - rewrite (parse_chunk_union chunk sections).
    destruct (parse_chunk chunk ∅) as [added|]; simpl; [|done].
    rewrite (IH (sections ∪ added)), (IH added).
    destruct (parse_chunks chunks ∅) as [more|]; simpl; [|done].
    by rewrite union_assoc_L.
Qed.

(** X1.  Parsing two specs joined by a comma: the first spec is parsed,
    then the second, and the result is the union of the two sets; an error
    in the first spec comes before an error in the second. *)
Theorem parse_joined_specs a b :
  parse_section_spec (a +:+ String "," b)
  = (first_set <- parse_section_spec a ;;
     second_set <- parse_section_spec b ;;
     Ok (first_set ∪ second_set)).
Proof.
  unfold parse_section_spec. rewrite str_split_join, parse_chunks_app.
  destruct (parse_chunks (str_split "," a) ∅) as [first_set|]; simpl; [|done].
  apply parse_chunks_union.
Qed.

(** X2.  Two specs with the same tokens, in any order and any number of
    times, parse to the same set when the tokens are accepted. *)
Theorem parse_order_independent spec spec' :
  (forall t, In t (tokens spec) <-> In t (tokens spec')) ->
  Forall accepted (tokens spec) ->
  exists sections,
    parse_section_spec spec = Ok sections
    /\ parse_section_spec spec' = Ok sections.
Proof.
  intros Hsame Hall.
  assert (Forall token_valid (tokens spec)) as Hvalid
    by (apply tokens_valid_accepted; [apply tokens_trimmed|done]).
  assert (Forall token_valid (tokens spec')) as Hvalid'.
  { rewrite List.Forall_forall in *. intros t Hin. by apply Hvalid, Hsame. }
  destruct (parse_tokens_valid spec Hvalid) as (sections & Hparse & Hsec).
  destruct (parse_tokens_valid spec' Hvalid') as (sections' & Hparse' & Hsec').
  exists sections. split; [done|]. rewrite Hparse'. f_equal.
  apply set_eq. intros n. rewrite Hsec, Hsec'.
  split; intros (t & lo & hi & Hin & Ht); exists t, lo, hi;
    (split; [by apply Hsame|done]).
Qed.

Lemma parse_order_independent_witness :
  exists sections,
    parse_section_spec "1,3-5" = Ok sections
    /\ parse_section_spec "3-5, 1,,1" = Ok sections.
Proof.
  apply parse_order_independent.
  - change (tokens "1,3-5") with ["1"; "3-5"].
    change (tokens "3-5, 1,,1") with ["3-5"; "1"; "1"].
    intros t. simpl. tauto.
  - change (tokens "1,3-5") with ["1"; "3-5"].
    repeat constructor.
    + exists 1, 1. by apply literal_single.
    + exists (Z.min 3 5), (Z.max 3 5). by apply (literal_pair "3" "5" 3 5).
Defined.

(** ** The parser on decimal literals *)

Section LiteralFacts.

Implicit Types (d : Decimal.uint) (n : Z).

Lemma uint_digit_chars d :
  str_forall is_digit_char (NilEmpty.string_of_uint d) = true.
Proof. induction d; simpl; by rewrite ?IHd. Qed.

Lemma digit_char_literal c : is_digit_char c = true -> is_literal_char c = true.
Proof. unfold is_literal_char, is_digit_char. by intros ->. Qed.

Lemma digit_char_ascii c : is_digit_char c = true -> (ord c <? 128)%N = true.
Proof. each_char c. Qed.

Lemma all_ascii_forall s :
  str_forall (fun c => (ord c <? 128)%N) s = true -> all_ascii s = true.
Proof. induction s as [|c s IH]; simpl; [done|]. by intros [-> ->%IH]%andb_true_iff. Qed.

Lemma uint_length d :
  String.length (NilEmpty.string_of_uint d) = Decimal.nb_digits d.
Proof. induction d; simpl; by rewrite ?IHd. Qed.

(** Scanning a run of digits reads them all. *)
Lemma scan_digits_uint d prev acc digits :
  Ascii.eqb prev "_" = false ->
  scan_digits (NilEmpty.string_of_uint d) prev acc digits
  = Some (uint_value d acc, (digits + Decimal.nb_digits d)%nat, "").
Proof.
  revert prev acc digits.
  induction d; intros prev acc digits Hprev; simpl;
    try (rewrite IHd by reflexivity; do 3 f_equal; lia).
  rewrite Hprev. do 3 f_equal. lia.
Qed.

Lemma uint_value_acc d (acc : positive) :
  Z.pos (Pos.of_uint_acc d acc) = uint_value d (Z.pos acc).
Proof.
  revert acc. induction d; intros acc; simpl; [done|..];
    rewrite IHd; f_equal; lia.
Qed.

Lemma uint_value_of_uint d : uint_value d 0 = Z.of_uint d.
Proof.
  unfold Z.of_uint. induction d; simpl; try done;
    by rewrite uint_value_acc.
Qed.

(** [int] reads back a run of digits that is short enough. *)
Lemma py_int_uint d :
  d <> Decimal.Nil ->
  (Decimal.nb_digits d <= max_str_digits)%nat ->
  py_int (NilEmpty.string_of_uint d) = Some (Z.of_uint d).
Proof.
  intros Hd Hlen. unfold py_int, to_ascii.
  rewrite all_ascii_forall
    by (generalize (uint_digit_chars d); apply str_forall_impl, digit_char_ascii).
  assert (read_sign (skip_spaces (NilEmpty.string_of_uint d))
          = (1, NilEmpty.string_of_uint d)) as ->
    by (by destruct d).
  assert (starts_with "_" (NilEmpty.string_of_uint d) = false) as ->
    by (by destruct d).
  rewrite scan_digits_uint by reflexivity. simpl skip_spaces. simpl is_empty.
  assert ((0 + Decimal.nb_digits d =? 0)%nat = false) as ->
    by (by destruct d).
  assert (exceeds_limit (0 + Decimal.nb_digits d) = false) as ->.
  { unfold exceeds_limit. simpl Nat.add.
    replace (max_str_digits <? Decimal.nb_digits d)%nat with false;
      [apply andb_false_r|].
    symmetry. apply Nat.ltb_ge. lia. }
  simpl. rewrite uint_value_of_uint. f_equal. by destruct (Z.of_uint d).
Qed.

Lemma decimal_literal_nonneg n :
  0 <= n ->
  exists d, d <> Decimal.Nil /\ decimal_literal n = NilEmpty.string_of_uint d
            /\ Z.of_uint d = n.
Proof.
  intros Hn. unfold decimal_literal.
  pose proof (DecimalZ.of_to n) as Hof.
  destruct n as [|p|p]; [| |lia].
  - by exists (Decimal.D0 Decimal.Nil).
  - simpl in *. destruct (Pos.to_uint p) as [|d|d|d|d|d|d|d|d|d|d] eqn:Hp;
      [discriminate|..]; eexists; (split; [|split; [reflexivity|exact Hof]]); done.
Qed.

Lemma py_int_decimal_literal n :
  0 <= n ->
  (String.length (decimal_literal n) <= max_str_digits)%nat ->
  py_int (decimal_literal n) = Some n
  /\ str_forall is_digit_char (decimal_literal n) = true.
Proof.
  intros (d & Hd & -> & <-)%decimal_literal_nonneg Hlen.
  rewrite uint_length in Hlen. split; [by apply py_int_uint|apply uint_digit_chars].
Qed.

End LiteralFacts.

Lemma str_forall_app (P : ascii -> bool) a b :
  str_forall P (a +:+ b) = str_forall P a && str_forall P b.
Proof. induction a as [|c a IH]; simpl; [done|]. by rewrite IH, andb_assoc. Qed.

(** A spec without a comma is one chunk. *)
Lemma parse_one_chunk spec :
  str_contains "," spec = false ->
  parse_section_spec spec = parse_chunk spec ∅.
Proof.
  intros Hcomma. unfold parse_section_spec. rewrite str_split_absent by done.
  simpl. by destruct (parse_chunk spec ∅).
Qed.

Lemma digit_char_no_space c : is_digit_char c = true -> negb (isspace c) = true.
Proof. intros H. by apply literal_char_no_space, digit_char_literal. Qed.

(** X3.  The decimal literal of a non-negative integer, when it has no
    more digits than [int] converts, parses to the set that holds this
    integer only. *)
Theorem parse_decimal_literal n :
  0 <= n ->
  (String.length (decimal_literal n) <= max_str_digits)%nat ->
  parse_section_spec (decimal_literal n) = Ok {[ n ]}.
Proof.
  intros Hn Hlen.
  destruct (py_int_decimal_literal n Hn Hlen) as [Hint Hchars].
  rewrite parse_one_chunk by by apply (str_forall_contains is_digit_char).
  unfold parse_chunk.
  rewrite str_strip_no_space
    by (revert Hchars; apply str_forall_impl, digit_char_no_space).
  rewrite (py_int_nonempty _ _ Hint).
  rewrite (str_forall_contains is_digit_char "-") by done.
  rewrite Hint. by rewrite union_empty_r_L.
Qed.

Lemma parse_decimal_literal_witness : parse_section_spec "15" = Ok {[ 15 ]}.
Proof.
  apply (parse_decimal_literal 15); [lia|].
  unfold max_str_digits. simpl. lia.
Defined.

(** X4.  Two such literals with a dash between them parse to the
    integers from the smaller to the larger one, and so does the token
    with the two literals exchanged. *)
Theorem parse_literal_range x y :
  0 <= x -> 0 <= y ->
  (String.length (decimal_literal x) <= max_str_digits)%nat ->
  (String.length (decimal_literal y) <= max_str_digits)%nat ->
  exists sections,
    parse_section_spec (decimal_literal x +:+ String "-" (decimal_literal y))
    = Ok sections
    /\ parse_section_spec (decimal_literal y +:+ String "-" (decimal_literal x))
       = Ok sections
    /\ forall n, n ∈ sections <-> Z.min x y <= n <= Z.max x y.
Proof.
  intros Hx Hy Hlx Hly.
  destruct (py_int_decimal_literal x Hx Hlx) as [Hix Hcx].
  destruct (py_int_decimal_literal y Hy Hly) as [Hiy Hcy].
  assert (forall a b u v,
            py_int a = Some u -> py_int b = Some v ->
            str_forall is_digit_char a = true -> str_forall is_digit_char b = true ->
            parse_section_spec (a +:+ String "-" b)
            = Ok (add_range (Z.min u v) (Z.max u v) ∅)) as Hrange.
  { intros a b u v Hu Hv Ha Hb.
    assert (str_forall is_literal_char (a +:+ String "-" b) = true) as Hchars.
    { rewrite str_forall_app. simpl.
      by rewrite (str_forall_impl _ _ a digit_char_literal Ha),
                 (str_forall_impl _ _ b digit_char_literal Hb). }
    rewrite parse_one_chunk by by apply (str_forall_contains is_literal_char).
    unfold parse_chunk.
    rewrite str_strip_no_space
      by (revert Hchars; apply str_forall_impl, literal_char_no_space).
    rewrite str_contains_cut.
    rewrite str_split1_cut by by apply (str_forall_contains is_digit_char).
    rewrite Hu, Hv. replace (is_empty (a +:+ String "-" b)) with false
      by (by destruct a).
    destruct (Z.ltb_spec v u).
    - by rewrite Z.min_r, Z.max_l by lia.
    - by rewrite Z.min_l, Z.max_r by lia. }
  exists (add_range (Z.min x y) (Z.max x y) ∅). split; [by apply Hrange|].
  split; [by rewrite Z.min_comm, Z.max_comm; apply Hrange|].
  intros n. rewrite elem_of_add_range, elem_of_empty. tauto.
Qed.

Lemma parse_literal_range_witness :
  exists sections,
    parse_section_spec "7-3" = Ok sections
    /\ parse_section_spec "3-7" = Ok sections
    /\ forall n, n ∈ sections <-> Z.min 7 3 <= n <= Z.max 7 3.
Proof.
  apply (parse_literal_range 7 3); try lia;
    unfold max_str_digits; simpl; lia.
Defined.

(** ** The transformer: when it succeeds, what it copies *)

Lemma keep_section_ok wanted s keep :
  keep_section wanted s = Ok keep -> section_hashable s.
Proof.
  intros Hkeep d v -> Hget. simpl in Hkeep. rewrite Hget in Hkeep.
  by destruct v.
Qed.

Lemma filter_sections_ok wanted l kept :
  filter_sections wanted l = Ok kept <->
  Forall section_hashable l /\ kept = List.filter (selected wanted) l.
Proof.
  split.
  - revert kept. induction l as [|s l IH]; intros kept; simpl.
    + by intros [= <-].
    + destruct (keep_section wanted s) as [keep|] eqn:Hkeep; [|discriminate].
      simpl. destruct (filter_sections wanted l) as [kept'|]; [|discriminate].
      simpl. intros [= <-]. destruct (IH kept' eq_refl) as [Hall ->].
      pose proof (keep_section_ok _ _ _ Hkeep) as Hs.
      rewrite (keep_section_hashable _ _ Hs) in Hkeep. injection Hkeep as <-.
      split; [by constructor|done].
  - intros [Hall ->]. by apply filter_sections_hashable.
Qed.

(** X5.  The transformer returns an output exactly when the document has
    no "sections" field, or has a list there and, if a filter is given, no
    dict entry of the list holds a list or a dict under "section". *)
Theorem build_succeeds_iff data seed theme_text section_filter :
  (exists out, build_output_structure data seed theme_text section_filter = Ok out)
  <-> dict_get "sections" data = None
      \/ exists all_sections,
           dict_get "sections" data = Some (JList all_sections)
           /\ (section_filter = None \/ Forall section_hashable all_sections).
Proof.
  split.
  - intros [out (l & kept & Hl & Hsel & _)%build_output_ok_inv].
    destruct (dict_get "sections" data) as [v|]; [right|by left].
    simpl in Hl. subst v. exists l. split; [done|].
    destruct section_filter as [wanted|]; [right|by left].
    by apply filter_sections_ok in Hsel as [? _].
  - intros [Hget|(l & Hget & Hfilter)].
    + rewrite (build_output_list _ _ _ _ []) by by rewrite Hget.
      destruct section_filter; simpl; eauto.
    + rewrite (build_output_list _ _ _ _ l) by by rewrite Hget.
      destruct Hfilter as [->|Hall]; simpl; [eauto|].
      destruct section_filter as [wanted|]; simpl; [|eauto].
      rewrite (filter_sections_hashable _ _ Hall). simpl. eauto.
Qed.

Lemma copy_fields_get k data out :
  k <> "sections" ->
  NoDup (dict_keys data) ->
  dict_get k (copy_fields data out)
  = match dict_get k data with
    | Some v => Some v
    | None => dict_get k out
    end.
Proof.
  intros Hk. revert out.
  induction data as [|[k' v'] data IH]; intros out Hnd; [done|].
  apply NoDup_cons in Hnd as [Hfresh Hnd].
  rewrite copy_fields_cons, IH by done. simpl dict_get.
  destruct (String.eqb_spec k' "sections") as [->|Hsec].
  - by destruct (String.eqb_spec "sections" k).
  - destruct (String.eqb_spec k' k) as [->|Hne].
    + replace (dict_get k data) with (@None json).
      * apply dict_get_set_same.
      * symmetry. apply dict_get_absent. by rewrite <- list_elem_of_In.
    + by rewrite dict_get_set_other by done.
Qed.

(** X6.  Looking a key other than "sections" up in the output of a
    document with distinct keys: a key of the document gives the
    document's value; "seed" and "theme", when the document does not have
    them, give the supplied seed and theme; any other key is absent. *)
Theorem output_fields data seed theme_text section_filter out k :
  NoDup (dict_keys data) ->
  build_output_structure data seed theme_text section_filter = Ok out ->
  k <> "sections" ->
  dict_get k out
  = match dict_get k data with
    | Some v => Some v
    | None =>
        if String.eqb k "seed" then Some (JInt seed)
        else if String.eqb k "theme" then Some (JStr theme_text)
        else None
    end.
Proof.
  intros Hnd (l & kept & _ & _ & ->)%build_output_ok_inv Hk.
  rewrite dict_get_set_other, copy_fields_get by done.
  destruct (dict_get k data); [done|].
  unfold initial_output. cbn [dict_get].
  rewrite (String.eqb_sym "seed" k), (String.eqb_sym "theme" k).
  by destruct (String.eqb k "seed"), (String.eqb k "theme").
Qed.

Lemma output_fields_witness :
  dict_get "title" [("seed", JInt 42); ("theme", JStr "Hi"); ("title", JStr "T");
                    ("sections", JList [])]
  = match dict_get "title" titled_doc with
    | Some v => Some v
    | None =>
        if String.eqb "title" "seed" then Some (JInt 42)
        else if String.eqb "title" "theme" then Some (JStr "Hi")
        else None
    end.
Proof.
  apply (output_fields titled_doc 42 "Hi" None).
  - apply (bool_decide_unpack _). vm_compute. exact I.
  - reflexivity.
  - discriminate.
Defined.

(** X7 is [output_key_order] above; here it is used on a document. *)
Lemma output_key_order_witness :
  exists kept,
    [("seed", JInt 42); ("theme", JStr "Hi"); ("title", JStr "T");
     ("sections", JList [])]
    = ("seed", JInt 42) :: ("theme", JStr "Hi")
      :: dict_del "sections" titled_doc ++ [("sections", JList kept)].
Proof.
  apply (output_key_order titled_doc 42 "Hi" None).
  - apply (bool_decide_unpack _). vm_compute. exact I.
  - simpl. intros [H|[H|[]]]; discriminate H.
  - simpl. intros [H|[H|[]]]; discriminate H.
  - reflexivity.
Defined.

(** ** The transformer: one filter after another *)

Lemma selected_intersection (A B : gset Z) s :
  selected (A ∩ B) s = selected A s && selected B s.
Proof.
  assert (forall n, bool_decide (n ∈ A ∩ B)
                    = bool_decide (n ∈ A) && bool_decide (n ∈ B)) as Hn.
  { intros n. rewrite <- bool_decide_and. apply bool_decide_ext.
    apply elem_of_intersection. }
  destruct s as [| | | | | |d]; try reflexivity. simpl.
  destruct (dict_get "section" d) as [[|b|n|f| | |]|]; try reflexivity; try apply Hn.
  destruct (float_integral f); [apply Hn|reflexivity].
Qed.

Lemma filter_twice {X : Type} (f g : X -> bool) (l : list X) :
  List.filter g (List.filter f l) = List.filter (fun x => f x && g x) l.
Proof.
  induction l as [|x l IH]; simpl; [done|].
  destruct (f x); simpl; [|done]. destruct (g x); by rewrite IH.
Qed.

(** X8.  Filtering with a set [A], deleting "seed" and "theme" from the
    output and filtering it with a set [B] succeeds and gives the
    "sections" value that one run with the intersection of [A] and [B]
    gives. *)
Theorem filters_compose data seed theme_text (A B : gset Z) out seed' theme_text' :
  build_output_structure data seed theme_text (Some A) = Ok out ->
  exists out' out'',
    build_output_structure (dict_del "theme" (dict_del "seed" out))
      seed' theme_text' (Some B) = Ok out'
    /\ build_output_structure data seed theme_text (Some (A ∩ B)) = Ok out''
    /\ dict_get "sections" out' = dict_get "sections" out''.
Proof.
  intros (l & kept & Hl & Hsel & ->)%build_output_ok_inv.
  apply filter_sections_ok in Hsel as [Hall ->].
  assert (Forall section_hashable (List.filter (selected A) l)) as Hkept.
  { rewrite List.Forall_forall in *. intros s [Hin _]%filter_In. by apply Hall. }
  do 2 eexists. split; [|split].
  - rewrite (build_output_list _ _ _ _ (List.filter (selected A) l)).
    + simpl. by rewrite (filter_sections_hashable _ _ Hkept).
    + rewrite !dict_get_del_other by done. by rewrite dict_get_set_same.
  - rewrite (build_output_list _ _ _ _ l) by done.
    simpl. by rewrite (filter_sections_hashable _ _ Hall).
  - rewrite !dict_get_set_same, filter_twice. do 2 f_equal.
    apply filter_ext. intros s. by rewrite selected_intersection.
Qed.

Lemma filters_compose_witness :
  exists out' out'',
    build_output_structure
      (dict_del "theme" (dict_del "seed"
         [("seed", JInt 42); ("theme", JStr "Hi");
          ("sections", JList [JDict [("section", JInt 1); ("x", JStr "a")];
                              JDict [("section", JInt 2); ("x", JStr "b")]])]))
      1 "Lo" (Some {[2; 3]}) = Ok out'
    /\ build_output_structure sectioned_doc 42 "Hi" (Some ({[1; 2]} ∩ {[2; 3]})) = Ok out''
    /\ dict_get "sections" out' = dict_get "sections" out''.
Proof.
  apply (filters_compose sectioned_doc 42 "Hi" {[1; 2]} {[2; 3]}).
  vm_compute. reflexivity.
Defined.

(** ** [main] *)

(** X10.  A [--section] value with a token that is not accepted stops
    [main] before it looks at the document: whatever the document is, the
    message is "Error: " and the parser's message for the first such
    token. *)
Theorem main_rejects_spec_first data seed theme_text spec pre t post :
  tokens spec = pre ++ t :: post ->
  Forall accepted pre ->
  ~ accepted t ->
  main_body data seed theme_text (Some spec)
  = Exited 1
      ("Error: "
       +:+ (if str_contains "-" t then "Invalid section range: "
            else "Invalid section value: ")
       +:+ py_repr t).
Proof.
  intros Heq Hpre Ht.
  assert (parse_section_spec spec = Raise (token_error t)) as Hparse.
  { apply parse_tokens_raise. exists pre, t, post. split; [done|].
    assert (forall t', In t' (pre ++ t :: post) -> trimmed t') as Htrim
      by (intros t' Hin; apply (tokens_trimmed spec); by rewrite Heq).
    split; [|split; [|done]].
    - apply tokens_valid_accepted; [|done].
      intros t' Hin. apply Htrim, in_or_app. by left.
    - intros Hv. apply Ht. apply token_valid_accepted; [|done].
      apply Htrim, in_or_app. right. by left. }
  unfold main_body. simpl. rewrite Hparse, token_error_message. reflexivity.
Qed.

Lemma main_rejects_spec_first_witness :
  main_body (JList []) 42 "Hi" (Some "1,x,-")
  = Exited 1 "Error: Invalid section value: 'x'".
Proof.
  apply (main_rejects_spec_first (JList []) 42 "Hi" "1,x,-" ["1"] "x" ["-"]).
  - reflexivity.
  - repeat constructor. exists 1, 1. by apply literal_single.
  - intros [(lo & hi & H) _].
    inversion H as [t n Hn|a b x y Hx Hy Heq]; subst.
    + discriminate Hn.
    + destruct a as [|c [|c' a]]; discriminate Heq.
Defined.

(** For an accepted token of a spec the two readings agree. *)
Lemma token_readings_agree spec t lo hi :
  In t (tokens spec) -> accepted t ->
  literal_denotes t lo hi <-> token_denotes t lo hi.
Proof.
  intros Hin [_ Hdash]. split.
  - by apply literal_denotes_token; [apply (tokens_trimmed spec)|].
  - by intros [? _]%token_denotes_literal.
Qed.

(** X11.  From the [--section] value to the output: when every token is
    accepted and the document's "sections" list holds no list or dict
    under "section", [main] dumps an output whose "sections" list is the
    document's list filtered, in order, by the set of the integers that
    some token stands for. *)
Theorem main_selects_sections d seed theme_text spec all_sections :
  Forall accepted (tokens spec) ->
  dict_get "sections" d = Some (JList all_sections) ->
  Forall section_hashable all_sections ->
  exists out wanted,
    main_body (JDict d) seed theme_text (Some spec) = Dumped out
    /\ (forall n, n ∈ wanted <->
          exists t lo hi,
            In t (tokens spec) /\ literal_denotes t lo hi /\ lo <= n <= hi)
    /\ dict_get "sections" out
       = Some (JList (List.filter (selected wanted) all_sections)).
Proof.
  intros Hall Hget Hhash.
  assert (Forall token_valid (tokens spec)) as Hvalid
    by (apply tokens_valid_accepted; [apply tokens_trimmed|done]).
  destruct (parse_tokens_valid spec Hvalid) as (wanted & Hparse & Hsec).
  eexists. exists wanted. split; [|split].
  - unfold main_body. simpl. rewrite Hparse. simpl.
    rewrite (build_output_list _ _ _ _ all_sections) by by rewrite Hget.
    simpl. rewrite (filter_sections_hashable _ _ Hhash). reflexivity.
  - intros n. rewrite Hsec. rewrite List.Forall_forall in Hall.
    split; intros (t & lo & hi & Hin & Ht & Hn); exists t, lo, hi;
      (split; [done|]); (split; [|done]);
      by apply (token_readings_agree spec t lo hi Hin (Hall t Hin)).
  - apply dict_get_set_same.
Qed.

Lemma main_selects_sections_witness :
  exists out wanted,
    main_body (JDict sectioned_doc) 42 "Hi" (Some "2-3") = Dumped out
    /\ (forall n, n ∈ wanted <->
          exists t lo hi,
            In t (tokens "2-3") /\ literal_denotes t lo hi /\ lo <= n <= hi)
    /\ dict_get "sections" out
       = Some (JList (List.filter (selected wanted) three_sections)).
Proof.
  apply (main_selects_sections sectioned_doc 42 "Hi" "2-3" three_sections).
  - change (tokens "2-3") with ["2-3"]. repeat constructor.
    exists (Z.min 2 3), (Z.max 2 3). by apply (literal_pair "2" "3" 2 3).
  - reflexivity.
  - hashable_entries.
Defined.

Lemma filter_nothing_wanted l kept :
  filter_sections ∅ l = Ok kept -> kept = [].
Proof.
  intros [_ ->]%filter_sections_ok. induction l as [|s l IH]; [done|].
  simpl. replace (selected ∅ s) with false; [done|].
  destruct s as [| | | | | |d]; try reflexivity. simpl.
  destruct (dict_get "section" d) as [[|b|n|f| | |]|]; try reflexivity.
  by destruct (float_integral f).
Qed.

(** X12.  A [--section] value without tokens (empty, or commas and
    whitespace only) is a filter that selects nothing: when [main] dumps
    an output for it, the "sections" list of that output is empty. *)
Theorem main_empty_spec_selects_nothing data seed theme_text spec out :
  tokens spec = [] ->
  main_body data seed theme_text (Some spec) = Dumped out ->
  dict_get "sections" out = Some (JList []).
Proof.
  intros Hnil. unfold main_body. simpl.
  assert (parse_section_spec spec = Ok ∅) as ->.
  { assert (Forall token_valid (tokens spec)) as Hvalid by (by rewrite Hnil).
    destruct (parse_tokens_valid spec Hvalid) as (wanted & -> & Hsec).
    f_equal. apply set_eq. intros n. rewrite Hsec, Hnil.
    split; [by intros (t & lo & hi & [] & _)|].
    intros Hn. by apply not_elem_of_empty in Hn. }
  simpl. destruct data as [| | | | | |d]; try discriminate.
  destruct (build_output_structure d seed theme_text (Some ∅)) as [out'|] eqn:Hbuild;
    [|discriminate].
  intros [= ->].
  apply build_output_ok_inv in Hbuild as (l & kept & _ & Hsel & ->).
  rewrite dict_get_set_same. simpl in Hsel.
  by rewrite (filter_nothing_wanted _ _ Hsel).
Qed.

Lemma main_empty_spec_selects_nothing_witness :
  dict_get "sections" [("seed", JInt 42); ("theme", JStr "Hi"); ("sections", JList [])]
  = Some (JList []).
Proof.
  apply (main_empty_spec_selects_nothing (JDict sectioned_doc) 42 "Hi" " , ,").
  - reflexivity.
  - reflexivity.
Defined.

(** ** The parser sees the tokens only *)

Lemma str_rstrip_idem s : str_rstrip (str_rstrip s) = str_rstrip s.
Proof.
  induction s as [|c s IH]; simpl; [done|].
  destruct (isspace c && is_empty (str_rstrip s)) eqn:E; simpl; [done|].
  by rewrite IH, E.
Qed.

Lemma str_strip_idem s : str_strip (str_strip s) = str_strip s.
Proof.
  destruct (is_empty (str_strip s)) eqn:Hempty.
  - by destruct (str_strip s).
  - destruct (str_strip_trimmed s Hempty) as (c & rest & Heq & Hc).
    unfold str_strip at 1. rewrite Heq. simpl str_lstrip. rewrite Hc.
    rewrite <- Heq. unfold str_strip. apply str_rstrip_idem.
Qed.

Lemma parse_chunk_strip chunk (sections : gset Z) :
  parse_chunk (str_strip chunk) sections = parse_chunk chunk sections.
Proof. unfold parse_chunk. by rewrite str_strip_idem. Qed.

Lemma parse_chunks_tokens chunks (sections : gset Z) :
  parse_chunks (chunk_tokens chunks) sections = parse_chunks chunks sections.
Proof.
  revert sections. induction chunks as [|chunk chunks IH]; intros sections; [done|].
  rewrite chunk_tokens_cons. simpl.
  destruct (is_empty (str_strip chunk)) eqn:Hempty.
  - rewrite parse_chunk_blank by done. simpl. apply IH.
  - simpl. rewrite parse_chunk_strip.
    destruct (parse_chunk chunk sections); simpl; [apply IH|done].
Qed.

(** X13.  Two specs with the same list of tokens give the same result,
    set or error: whitespace around a token and empty chunks change
    nothing. *)
Theorem parse_depends_on_tokens spec spec' :
  tokens spec = tokens spec' ->
  parse_section_spec spec = parse_section_spec spec'.
Proof.
  intros Heq. unfold parse_section_spec.
  rewrite <- (parse_chunks_tokens (str_split "," spec)).
  rewrite <- (parse_chunks_tokens (str_split "," spec')).
  unfold tokens in Heq. by rewrite Heq.
Qed.

Lemma parse_depends_on_tokens_witness :
  parse_section_spec " 1 ,, 3-b ," = parse_section_spec "1,3-b".
Proof. apply parse_depends_on_tokens. reflexivity. Defined.

(** ** [load_source_datasets] *)

Section SourceEntries.

Variable title : string -> string.

Implicit Types (item : json) (items : list json) (entries : list dict).

Lemma entry_of_loaded item entry :
  App.entry_of title item = App.Loaded entry ->
  item_loads item
  /\ match entry with
     | None => truthy (short_name_of item) = false
     | Some e =>
         truthy (short_name_of item) = true
         /\ exists name, e = [("id", short_name_of item); ("name", name)]
     end.
Proof.
  destruct item as [| | | | | |d]; try discriminate. simpl.
  destruct (truthy (default JNull (dict_get "short_name" d))) eqn:Hshort; simpl.
  - destruct (truthy (default JNull (dict_get "name" d))) eqn:Hname.
    + intros [= <-]. split; [exists d; auto|]. eauto.
    + destruct (dict_get "short_name" d) as [[| | | |s| |]|] eqn:Hget;
        try discriminate.
      intros [= <-]. split; [exists d; eauto 6|]. eauto.
  - intros [= <-]. split; [exists d; auto|done].
Qed.

Lemma entry_of_loads item :
  item_loads item -> exists entry, App.entry_of title item = App.Loaded entry.
Proof.
  intros (d & -> & H). simpl.
  destruct (truthy (default JNull (dict_get "short_name" d))); simpl; [|eauto].
  destruct (truthy (default JNull (dict_get "name" d))); [eauto|].
  destruct H as [H|[H|[s ->]]]; try discriminate. simpl. eauto.
Qed.

Lemma entries_of_loaded items entries :
  App.entries_of title items = App.Loaded entries ->
  Forall item_loads items
  /\ map (dict_get "id") entries
     = map Some (List.filter truthy (map short_name_of items))
  /\ Forall (fun e => exists id name,
                        e = [("id", id); ("name", name)] /\ truthy id = true)
            entries.
Proof.
  revert entries. induction items as [|item items IH]; intros entries; simpl.
  - intros [= <-]. by repeat split.
  - destruct (App.entry_of title item) as [entry|] eqn:Hentry; [|discriminate].
    destruct (App.entries_of title items) as [rest|]; [|discriminate].
    intros [= <-]. destruct (IH rest eq_refl) as (Hall & Hids & Hshape).
    apply entry_of_loaded in Hentry as [Hitem Hentry].
    split; [by constructor|].
    destruct entry as [e|].
    + destruct Hentry as [Hshort [name ->]]. rewrite Hshort. simpl.
      split; [by rewrite Hids|]. constructor; [eauto|done].
    + by rewrite Hentry.
Qed.

Lemma entries_of_loads items :
  Forall item_loads items ->
  exists entries, App.entries_of title items = App.Loaded entries.
Proof.
  induction 1 as [|item items Hitem _ [entries IH]]; simpl; [eauto|].
  destruct (entry_of_loads item Hitem) as [entry ->]. rewrite IH. eauto.
Qed.

End SourceEntries.

(** X14.  The data sources are returned exactly when the parsed file is
    a list or an object and every item is a dict that is skipped (its
    "short_name" is missing or falsy), or has a truthy "name", or has a
    string as its "short_name". *)
Theorem source_entries_loads_iff title data :
  (exists entries, App.source_entries title data = App.Loaded entries)
  <-> exists items, items_of data = Some items /\ Forall item_loads items.
Proof.
  split.
  - intros [entries H].
    destruct data as [| | | | |items|d]; try discriminate.
    + exists items. split; [done|]. by apply entries_of_loaded in H as [? _].
    + exists [JDict d]. split; [done|]. by apply entries_of_loaded in H as [? _].
  - intros (items & Hitems & Hall).
    destruct data as [| | | | |items'|d]; try discriminate;
      injection Hitems as <-; by apply entries_of_loads.
Qed.

(** X15.  The ids of the data sources are the truthy "short_name"
    values of the items, in the items' order; every data source is a dict
    with the two keys "id" and "name", in this order. *)
Theorem source_entries_ids title data items entries :
  items_of data = Some items ->
  App.source_entries title data = App.Loaded entries ->
  map (dict_get "id") entries
  = map Some (List.filter truthy (map short_name_of items))
  /\ Forall (fun e => exists id name,
                        e = [("id", id); ("name", name)] /\ truthy id = true)
            entries.
Proof.
  intros Hitems H.
  destruct data as [| | | | |items'|d]; try discriminate;
    injection Hitems as <-; by apply entries_of_loaded in H as (_ & ? & ?).
Qed.

Lemma source_entries_ids_witness :
  map (dict_get "id")
    [[("id", JStr "ww_3000"); ("name", JStr "ww 3000")];
     [("id", JStr "b"); ("name", JStr "Book B")]]
  = map Some
      (List.filter truthy
         (map short_name_of
            [JDict [("short_name", JStr "ww_3000")];
             JDict [("name", JStr "no id")];
             JDict [("short_name", JStr "b"); ("name", JStr "Book B")]]))
  /\ Forall (fun e => exists id name,
                        e = [("id", id); ("name", name)] /\ truthy id = true)
       [[("id", JStr "ww_3000"); ("name", JStr "ww 3000")];
        [("id", JStr "b"); ("name", JStr "Book B")]].
Proof.
  apply (source_entries_ids
           (fun s => s)
           (JList [JDict [("short_name", JStr "ww_3000")];
                   JDict [("name", JStr "no id")];
                   JDict [("short_name", JStr "b"); ("name", JStr "Book B")]])).
  - reflexivity.
  - reflexivity.
Defined.

(** X16.  [load_source_datasets] raises its [ValueError] exactly when
    the parsed file is neither a list nor an object. *)
Theorem source_entries_value_error title data :
  App.source_entries title data = App.Failed App.not_list_or_object
  <-> items_of data = None.
Proof.
  assert (forall items,
            App.entries_of title items <> App.Failed App.not_list_or_object) as Hloop.
  { induction items as [|item items IH]; simpl; [done|].
    destruct (App.entry_of title item) as [entry|e] eqn:Hentry.
    - destruct (App.entries_of title items); [done|]. intros [= ->]. by apply IH.
    - intros [= ->]. destruct item as [| | | | | |d]; try discriminate.
      simpl in Hentry.
      destruct (truthy (default JNull (dict_get "short_name" d)));
        simpl in Hentry; [|discriminate].
      destruct (truthy (default JNull (dict_get "name" d))); [discriminate|].
      by destruct (default JNull (dict_get "short_name" d)). }
  destruct data as [| | | | |items|d]; split; try done; intros H;
    by apply Hloop in H.
Qed.

(** ** The transformer: the place of "sections", the filter's test *)

(** X17.  In the output of a document with distinct keys, "sections" is
    the last field, it is a list, and no field before it has that key. *)
Theorem sections_field_last data seed theme_text section_filter out :
  NoDup (dict_keys data) ->
  build_output_structure data seed theme_text section_filter = Ok out ->
  exists front kept,
    out = front ++ [("sections", JList kept)]
    /\ ~ In "sections" (dict_keys front).
Proof.
  intros Hnd (l & kept & _ & _ & ->)%build_output_shape; [|done].
  eexists (_ :: _ :: _), kept. split; [reflexivity|].
  simpl. intros [H|[H|H]]; [discriminate H..|].
  revert H. apply dict_get_absent, dict_get_del_same.
Qed.

Lemma sections_field_last_witness :
  exists front kept,
    [("seed", JInt 7); ("theme", JStr "old"); ("sections", JList [])]
    = front ++ [("sections", JList kept)]
    /\ ~ In "sections" (dict_keys front).
Proof.
  apply (sections_field_last seeded_doc 42 "Hi" None).
  - apply (bool_decide_unpack _). vm_compute. exact I.
  - reflexivity.
Defined.

(** X18.  The test of the filter holds for an entry exactly when the
    entry is a dict whose "section" value compares equal to a member of
    the set: an int, a bool (read as 0 or 1) or a float that is a whole
    number. *)
Theorem keep_section_true_iff wanted s :
  keep_section wanted s = Ok true
  <-> exists d v n,
        s = JDict d /\ dict_get "section" d = Some v
        /\ equals_int v n /\ n ∈ wanted.
Proof.
  rewrite <- selected_spec. split.
  - intros Hkeep. pose proof (keep_section_ok _ _ _ Hkeep) as Hs.
    rewrite (keep_section_hashable _ _ Hs) in Hkeep. by injection Hkeep.
  - intros Hsel. rewrite keep_section_hashable; [by rewrite Hsel|].
    intros d v -> Hget. simpl in Hsel. rewrite Hget in Hsel. by destruct v.
Qed.
